(** * zai.check: the boolean-condition evaluation pipeline

    A shallow embedding of [packages/zai/src/operations/check.ts] and the
    properties of its budget allocation, fingerprint cache, example packing,
    verdict parsing, persistence and cancellation. *)

From Stdlib Require Import List ZArith NArith Bool Lia String Ascii.
From Stdlib Require Floats.SpecFloat.
Import ListNotations.

Set Implicit Arguments.

#[local] Abbreviation length := List.length.

(** ** JavaScript strings

    A JS string is a sequence of UTF-16 code units.  [includes],
    [lastIndexOf], [replace] and [trim] all work on code units, so the model
    keeps that representation. *)

Module JS.

Definition jsstring := list N.

(** An ASCII literal as a JS string. *)
Definition str (s : string) : jsstring :=
  map N_of_ascii (list_ascii_of_string s).

(** U+000A, the line feed of the template literals. *)
Definition nl : jsstring := [10%N].

Definition jsstring_eqb (a b : jsstring) : bool :=
  if list_eq_dec N.eq_dec a b then true else false.

(** [text.startsWith(pat)] *)
Fixpoint startsWith (pat text : jsstring) : bool :=
  match pat, text with
  | [], _ => true
  | _ :: _, [] => false
  | p :: pat', c :: text' => (p =? c)%N && startsWith pat' text'
  end.

(** [text.includes(pat)] *)
Fixpoint includes (pat text : jsstring) : bool :=
  startsWith pat text ||
  match text with
  | [] => false
  | _ :: text' => includes pat text'
  end.

(** [text.lastIndexOf(pat)], counting positions from [i]; -1 when [pat]
    does not occur. *)
Fixpoint lastIndexOf_from (pat text : jsstring) (i : Z) : Z :=
  match text with
  | [] => if startsWith pat [] then i else (-1)%Z
  | _ :: text' =>
      let r := lastIndexOf_from pat text' (i + 1) in
      if (0 <=? r)%Z then r
      else if startsWith pat text then i else (-1)%Z
  end.

Definition lastIndexOf (pat text : jsstring) : Z := lastIndexOf_from pat text 0.

(** [text.replace(pat, rep)] with a string pattern: only the first
    occurrence of [pat] is replaced.  Every call in [check.ts] passes the
    empty replacement, which has no [$] patterns to expand. *)
Fixpoint replace (pat rep text : jsstring) : jsstring :=
  if startsWith pat text then rep ++ skipn (length pat) text
  else match text with
       | [] => []
       | c :: text' => c :: replace pat rep text'
       end.

(** [text.replaceAll(pat, '')] for a non-empty [pat]: what removing every
    occurrence, scanning left to right, would give. *)
Fixpoint removeAll_fuel (fuel : nat) (pat text : jsstring) : jsstring :=
  match fuel with
  | O => text
  | S fuel' =>
      match text with
      | [] => []
      | c :: text' =>
          if startsWith pat text
          then removeAll_fuel fuel' pat (skipn (length pat) text)
          else c :: removeAll_fuel fuel' pat text'
      end
  end.

Definition removeAll (pat text : jsstring) : jsstring :=
  removeAll_fuel (length text) pat text.

(** WhiteSpace and LineTerminator code points of ECMAScript, the ones
    [String.prototype.trim] strips. *)
Definition is_ws (c : N) : bool :=
  match c with
  | 9 | 10 | 11 | 12 | 13 | 32 | 160 | 5760
  | 8192 | 8193 | 8194 | 8195 | 8196 | 8197 | 8198 | 8199 | 8200 | 8201 | 8202
  | 8232 | 8233 | 8239 | 8287 | 12288 | 65279 => true
  | _ => false
  end%N.

Fixpoint trimStart (s : jsstring) : jsstring :=
  match s with
  | [] => []
  | c :: s' => if is_ws c then trimStart s' else s
  end.

Definition trimEnd (s : jsstring) : jsstring := rev (trimStart (rev s)).

(** [s.trim()] *)
Definition trim (s : jsstring) : jsstring := trimEnd (trimStart s).

(** Decimal rendering of a non-negative integer, as template literals
    render a number. *)
Fixpoint digits_fuel (fuel : nat) (n : N) (acc : jsstring) : jsstring :=
  match fuel with
  | O => acc
  | S fuel' =>
      let acc' := (48 + n mod 10)%N :: acc in
      if (n <? 10)%N then acc' else digits_fuel fuel' (n / 10)%N acc'
  end.

Definition number_toString (z : Z) : jsstring :=
  let n := Z.to_N (Z.abs z) in
  (if (z <? 0)%Z then str "-" else []) ++ digits_fuel (S (N.to_nat (N.log2 n))) n [].

(** [pat] occurs in [text] at position [i]. *)
Definition occurs_at (pat text : jsstring) (i : Z) : Prop :=
  (0 <= i <= Z.of_nat (length text))%Z /\
  startsWith pat (skipn (Z.to_nat i) text) = true.

(** [pat] occurs somewhere in [text]. *)
Definition occurs (pat text : jsstring) : Prop :=
  exists pre post, text = pre ++ pat ++ post.

(** [i] is the start of the last occurrence of [pat] in [text]. *)
Definition last_occurrence (pat text : jsstring) (i : Z) : Prop :=
  occurs_at pat text i /\ forall j, occurs_at pat text j -> (j <= i)%Z.

End JS.
Export JS.

(** ** Data model *)

(** A value of type [unknown]: the JSON-like values the operation is
    called with. *)
#[local] Unset Elimination Schemes.
Inductive jsvalue : Type :=
| VUndefined
| VNull
| VBoolean (b : bool)
| VNumber (z : Z)
| VString (s : jsstring)
| VArray (items : list jsvalue)
| VObject (fields : list (jsstring * jsvalue)).
#[local] Set Elimination Schemes.

(** [type Example] *)
Record Example : Type := mkExample {
  ex_input : jsvalue;
  ex_check : bool;
  ex_reason : option jsstring;
  ex_condition : option jsstring
}.

(** [type Options]; [_Options.parse] fills in the default. *)
Record Options : Type := mkOptions {
  examples : option (list Example)
}.

Record ParsedOptions : Type := mkParsedOptions {
  opt_examples : list Example
}.

Definition _Options_parse (o : Options) : ParsedOptions :=
  {| opt_examples := match examples o with Some l => l | None => [] end |}.

(** [x ?? d] *)
Definition nullish {A : Type} (x : option A) (d : A) : A :=
  match x with Some a => a | None => d end.

(** The three sentinels: U+25A0 around the word. *)
Definition TRUE : jsstring := [9632%N] ++ str "TRUE" ++ [9632%N].
Definition FALSE : jsstring := [9632%N] ++ str "FALSE" ++ [9632%N].
Definition END : jsstring := [9632%N] ++ str "END" ++ [9632%N].

(** What a rejected promise or a [throw] carries. *)
Inductive error : Type :=
| Cancelled
| MalformedVerdict (message : jsstring)
| StoreFailure (message : jsstring)
| ProviderFailure (message : jsstring).

Inductive result (A : Type) : Type :=
| Ok (a : A)
| Err (e : error).
Arguments Err {A} e.

(** The value [check] resolves to. *)
Record CheckResult : Type := mkCheckResult {
  value : bool;
  explanation : jsstring
}.

(** The [extracted] part of what [generateContent] returns. *)
Record Extracted : Type := mkExtracted {
  finalAnswer : bool;
  x_explanation : jsstring
}.

(** ** The [transform] callback (lines 205-230) *)

Definition malformed_message (text : jsstring) : jsstring :=
  str "The model did not return a valid answer. The response was: " ++ text.

Definition transform (text : jsstring) : result Extracted :=
  let hasTrue := includes TRUE text in
  let hasFalse := includes FALSE text in
  if negb hasTrue && negb hasFalse
  then Err (MalformedVerdict (malformed_message text))
  else
    let explanation :=
      trim (replace (str "Analysis:") []
           (replace (str "Final Answer:") []
           (replace END []
           (replace FALSE []
           (replace TRUE [] text))))) in
    let finalAnswer :=
      if hasTrue && hasFalse
      then (lastIndexOf FALSE text <? lastIndexOf TRUE text)%Z
      else hasTrue in
    Ok {| finalAnswer := finalAnswer; x_explanation := trim explanation |}.

(** The explanation as the specification words it: every occurrence of the
    three markers and of the two labels removed, then trimmed. *)
Definition spec_explanation (text : jsstring) : jsstring :=
  trim (removeAll (str "Analysis:")
       (removeAll (str "Final Answer:")
       (removeAll END
       (removeAll FALSE
       (removeAll TRUE text))))).

(** ** Collaborators *)

(** The tokenizer capability: [count(text)] and [truncate(text, maxTokens)]. *)
Record Tokenizer : Type := mkTokenizer {
  count : jsstring -> Z;
  truncate : jsstring -> Z -> jsstring
}.

(** The argument of [adapter.getExamples]. *)
Record GetExamplesProps : Type := mkGetExamplesProps {
  g_input : jsstring;
  g_taskType : jsstring;
  g_taskId : jsstring
}.

(** One record as [adapter.getExamples<string, boolean>] returns it. *)
Record Retrieved : Type := mkRetrieved {
  key : jsstring;
  r_input : jsstring;
  r_output : bool;
  r_explanation : option jsstring
}.

(** [meta] of a completion.  The numbers are copied into the stored record
    and never computed with. *)
Record Meta : Type := mkMeta {
  cost_input : Z;
  cost_output : Z;
  latency : Z;
  tokens_input : Z;
  tokens_output : Z
}.

Record Metadata : Type := mkMetadata {
  m_cost_input : Z;
  m_cost_output : Z;
  m_latency : Z;
  m_model : jsstring;
  m_tokens_input : Z;
  m_tokens_output : Z
}.

(** The argument of [adapter.saveExample] (lines 234-254). *)
Record SavedExample : Type := mkSavedExample {
  s_key : jsstring;
  s_taskType : jsstring;
  s_taskId : jsstring;
  s_input : jsstring;
  s_instructions : jsstring;
  s_metadata : Metadata;
  s_output : bool;
  s_explanation : jsstring
}.

Inductive role : Type := user | assistant.

(** A text message of the completion request. *)
Record Message : Type := mkMessage {
  content : jsstring;
  msg_role : role
}.

Record Request : Type := mkRequest {
  systemPrompt : jsstring;
  stopSequences : list jsstring;
  messages : list Message
}.

(** The points of one invocation at which the caller may have aborted the
    controller: on entry and after each awaited call. *)
Inductive checkpoint : Type :=
| AtEntry
| AfterGetTokenizer
| AfterGetModel
| AfterGetExamples
| AfterGenerate
| AfterSave.

(** Calls to the collaborators, in the order they are made. *)
Inductive event : Type :=
| EvGetTokenizer
| EvGetModel
| EvGetExamples (props : GetExamplesProps)
| EvGenerate (req : Request)
| EvSaveExample (rec : SavedExample).

Definition is_model_call (e : event) : bool :=
  match e with EvGenerate _ => true | _ => false end.

Definition is_save_call (e : event) : bool :=
  match e with EvSaveExample _ => true | _ => false end.

Section Pipeline.

(** The state of the example store behind the adapter. *)
Variable Store : Type.

(** [ctx.adapter]: reading leaves the store as it is; writing may change
    it and may fail. *)
Record Adapter : Type := mkAdapter {
  getExamples : Store -> GetExamplesProps -> result (list Retrieved);
  saveExample : Store -> SavedExample -> result unit * Store
}.

(** What the imports of [check.ts] and the awaited collaborators provide.
    [getTokenizer()] and [ctx.getModel()] are taken to resolve; the store
    and the model may fail. *)
Record Env : Type := mkEnv {
  (** what [await getTokenizer()] resolves to *)
  tokenizer : Tokenizer;
  (** [(await ctx.getModel()).input.maxTokens] *)
  maxTokens : Z;
  (** the constant imported from [./constants] *)
  PROMPT_INPUT_BUFFER : Z;
  (** [stringify] of [../utils] *)
  stringify : jsvalue -> jsstring;
  (** [fastHash] of [../utils] *)
  fastHash : jsstring -> jsstring;
  (** the text-generation model behind [ctx.generateContent] *)
  generate : Request -> result (jsstring * Meta)
}.

(** [ZaiContext], as [check] reads it. *)
Record ZaiContext : Type := mkZaiContext {
  taskId : option jsstring;
  modelId : jsstring;
  adapter : option Adapter;
  (** [ctx.controller.signal.aborted] at each point of the run *)
  signal : checkpoint -> bool
}.

(** ** State and errors *)

Record World : Type := mkWorld {
  store : Store;
  trace : list event
}.

Definition M (A : Type) : Type := World -> result A * World.

Definition ret {A : Type} (a : A) : M A := fun w => (Ok a, w).

Definition throw {A : Type} (e : error) : M A := fun w => (Err e, w).

Definition bind {A B : Type} (c : M A) (k : A -> M B) : M B :=
  fun w =>
    match c w with
    | (Ok a, w') => k a w'
    | (Err e, w') => (Err e, w')
    end.

Definition emit (e : event) : M unit :=
  fun w => (Ok tt, {| store := store w; trace := trace w ++ [e] |}).

End Pipeline.

Arguments ret {Store A} a.
Arguments throw {Store A} e.
Arguments bind {Store A B} c k.
Arguments emit {Store} e.

Declare Scope check_scope.
Delimit Scope check_scope with check.
Notation "x <- c ;; k" := (bind c (fun x => k))
  (at level 61, c at next level, right associativity) : check_scope.
Notation "c ;; k" := (bind c (fun _ => k))
  (at level 61, right associativity) : check_scope.

Open Scope Z_scope.

(** ** The fingerprint (lines 86-93) *)

Definition dq : jsstring := [34%N].

Definition hex_digit (n : N) : N :=
  if (n <? 10)%N then (48 + n)%N else (87 + n)%N.

Definition unicodeEscape (c : N) : jsstring :=
  str "\u" ++ [hex_digit ((c / 4096) mod 16); hex_digit ((c / 256) mod 16);
               hex_digit ((c / 16) mod 16); hex_digit (c mod 16)].

Definition is_leading_surrogate (c : N) : bool :=
  ((55296 <=? c) && (c <=? 56319))%N.

Definition is_trailing_surrogate (c : N) : bool :=
  ((56320 <=? c) && (c <=? 57343))%N.

(** The characters of [JSON.stringify(s)] between the quotes
    (QuoteJSONString): the short escapes, [\uXXXX] for the other control
    characters and for lone surrogates, everything else as it is. *)
Fixpoint quoteJSON_chars (s : jsstring) : jsstring :=
  match s with
  | [] => []
  | c :: s' =>
      let rest := quoteJSON_chars s' in
      match c with
      | 8%N => str "\b" ++ rest
      | 9%N => str "\t" ++ rest
      | 10%N => str "\n" ++ rest
      | 12%N => str "\f" ++ rest
      | 13%N => str "\r" ++ rest
      | 34%N => str "\" ++ dq ++ rest
      | 92%N => str "\\" ++ rest
      | _ =>
          if (c <? 32)%N then unicodeEscape c ++ rest
          else if is_leading_surrogate c then
            match s' with
            | d :: s'' =>
                if is_trailing_surrogate d then c :: d :: quoteJSON_chars s''
                else unicodeEscape c ++ rest
            | [] => unicodeEscape c
            end
          else if is_trailing_surrogate c then unicodeEscape c ++ rest
          else c :: rest
      end
  end.

Definition quoteJSON (s : jsstring) : jsstring := dq ++ quoteJSON_chars s ++ dq.

Definition json_property (name value : jsstring) : jsstring :=
  dq ++ name ++ dq ++ str ":" ++ quoteJSON value.

(** [JSON.stringify({ taskType, taskId, input, condition })]; a property
    whose value is [undefined] is left out. *)
Definition JSON_stringify_key
    (taskType : jsstring) (taskId : option jsstring) (input condition : jsstring)
  : jsstring :=
  str "{" ++ json_property (str "taskType") taskType ++
  match taskId with
  | Some t => str "," ++ json_property (str "taskId") t
  | None => []
  end ++
  str "," ++ json_property (str "input") input ++
  str "," ++ json_property (str "condition") condition ++ str "}".

Definition taskType : jsstring := str "zai.check".

(** ** Budget allocation (lines 69-84)

    [maxTokens], the buffer and the token counts are integers, and sums and
    differences of integers are exact in JS numbers; so is [0.5 * c].  The
    product [0.2 * c] is not: 0.2 is the double [double_0_2 / 2^54], and the
    exact product is rounded to the nearest double, ties to even, before
    [Math.floor] is applied.  Below [2^50] the result is the integer part of
    the exact fifth; from about [6.7e15] on it can be one more. *)

Definition PROMPT_COMPONENT (maxTokens buffer : Z) : Z :=
  Z.max (maxTokens - buffer) 100.

(** [Math.floor(0.5 * PROMPT_COMPONENT)] *)
Definition PROMPT_TOKENS_INPUT (component : Z) : Z := component / 2.

(** The numerator of the double 0.2 over [2^54]: 0.2 is stored as
    [3602879701896397 / 2^54]. *)
Definition double_0_2 : Z := 3602879701896397.

(** A positive integer rounded to 53 significant bits, ties to even: the
    rounding that a double product undergoes. *)
Definition round_to_double (n : Z) : Z :=
  let s := Z.log2 n - 52 in
  if s <=? 0 then n
  else
    let P := 2 ^ s in
    let q := n / P in
    let rem := n mod P in
    let half := 2 ^ (s - 1) in
    (if rem <? half then q
     else if half <? rem then q + 1
     else if Z.even q then q else q + 1) * P.

(** The double [0.2 * c] for an integer [c], as a numerator over [2^54]. *)
Definition times_0_2 (c : Z) : Z :=
  Z.sgn c * round_to_double (Z.abs c * double_0_2).

(** [Math.floor(0.2 * PROMPT_COMPONENT)] *)
Definition PROMPT_TOKENS_CONDITION (component : Z) : Z :=
  times_0_2 component / 2 ^ 54.

(** The same product and floor by the IEEE 754 specification of the
    Standard Library, binary64. *)
Definition IEEE_floor (x : SpecFloat.spec_float) : option Z :=
  match x with
  | SpecFloat.S754_zero _ => Some 0
  | SpecFloat.S754_finite sign m e =>
      let v := if sign then - Z.pos m else Z.pos m in
      Some (if 0 <=? e then v * 2 ^ e else v / 2 ^ (- e))
  | _ => None
  end.

Definition IEEE_floor_times_0_2 (c : Z) : option Z :=
  IEEE_floor
    (SpecFloat.SFmul 53 1024
       (SpecFloat.S754_finite false 7205759403792794 (-55))
       (SpecFloat.binary_normalize 53 1024 c 0 false)).

(** What lines 69-93 compute before the store is consulted. *)
Record Prepared : Type := mkPrepared {
  component : Z;
  inputAsString : jsstring;
  condition' : jsstring;
  EXAMPLES_TOKENS : Z;
  Key : jsstring
}.

Definition prepare (env : Env) (tokenizer : Tokenizer) (maxTokens : Z)
    (taskId : option jsstring) (input : jsvalue) (condition : jsstring) : Prepared :=
  let PROMPT_COMPONENT := PROMPT_COMPONENT maxTokens (PROMPT_INPUT_BUFFER env) in
  let inputAsString :=
    truncate tokenizer (stringify env input) (PROMPT_TOKENS_INPUT PROMPT_COMPONENT) in
  let condition :=
    truncate tokenizer condition (PROMPT_TOKENS_CONDITION PROMPT_COMPONENT) in
  let EXAMPLES_TOKENS :=
    PROMPT_COMPONENT - count tokenizer inputAsString - count tokenizer condition in
  let Key :=
    fastHash env (JSON_stringify_key taskType taskId inputAsString condition) in
  {| component := PROMPT_COMPONENT;
     inputAsString := inputAsString;
     condition' := condition;
     EXAMPLES_TOKENS := EXAMPLES_TOKENS;
     Key := Key |}.

(** ** Example pool and packing (lines 109-171) *)

Definition defaultExamples : list Example :=
  [ {| ex_input := VString (str "50 Cent");
       ex_check := true;
       ex_reason := Some (str "50 Cent is widely recognized as a public personality.");
       ex_condition := Some (str "Is the input a public personality?") |};
    {| ex_input := VArray [VString (str "apple"); VString (str "banana");
                           VString (str "carrot"); VString (str "house")];
       ex_check := false;
       ex_reason := Some (str "The list contains a house, which is not a fruit. Also, the list contains a carrot, which is a vegetable.");
       ex_condition := Some (str "Is the input exclusively a list of fruits?") |} ].

(** [(e) => ({ input: e.input, check: e.output, reason: e.explanation })] *)
Definition example_of_retrieved (e : Retrieved) : Example :=
  {| ex_input := VString (r_input e);
     ex_check := r_output e;
     ex_reason := r_explanation e;
     ex_condition := None |}.

Definition userExamples (examples : list Retrieved) (options : ParsedOptions)
  : list Example :=
  map example_of_retrieved examples ++ opt_examples options.

(** [userExamples.length ? userExamples : defaultExamples] *)
Definition pool (userExamples : list Example) : list Example :=
  match userExamples with
  | [] => defaultExamples
  | _ :: _ => userExamples
  end.

(** [(el) => tokenizer.count(stringify(el.input)) + tokenizer.count(el.reason ?? '')] *)
Definition example_cost (env : Env) (tokenizer : Tokenizer) (el : Example) : Z :=
  count tokenizer (stringify env (ex_input el)) +
  count tokenizer (nullish (ex_reason el) []).

(** Modelled from the spec: [takeUntilTokens] of [../utils], which is not
    among the sources.  It scans the array in order, adds up the cost of
    each element and keeps an element while the running total stays within
    [tokens]; at the first element that would exceed [tokens] it stops. *)
Fixpoint takeUntilTokens_from {T : Type}
    (arr : list T) (tokens : Z) (cost : T -> Z) (total : Z) : list T :=
  match arr with
  | [] => []
  | el :: rest =>
      let elTokens := cost el in
      if tokens <? total + elTokens then []
      else el :: takeUntilTokens_from rest tokens cost (total + elTokens)
  end.

Definition takeUntilTokens {T : Type}
    (arr : list T) (tokens : Z) (cost : T -> Z) : list T :=
  takeUntilTokens_from arr tokens cost 0.

Definition packed (env : Env) (tokenizer : Tokenizer)
    (userExamples : list Example) (tokens : Z) : list Example :=
  takeUntilTokens (pool userExamples) tokens (example_cost env tokenizer).

(** ** Prompt assembly (lines 130-204)

    [exampleId] is a counter that [formatInput] reads and increments; the
    model passes it along. *)

Definition formatInput (hasUserExamples : bool) (exampleId : Z)
    (input condition : jsstring) : jsstring * Z :=
  let header :=
    if hasUserExamples
    then str "Expert Example #" ++ number_toString exampleId
    else str "Example of condition: " ++ dq ++ condition ++ dq in
  (trim (nl ++ header ++ nl ++
         str "<|start_input|>" ++ nl ++
         trim input ++ nl ++
         str "<|end_input|>" ++ nl),
   if hasUserExamples then exampleId + 1 else exampleId).

Definition formatOutput (answer : bool) (justification : jsstring) : jsstring :=
  trim (nl ++ str "Analysis: " ++ justification ++ nl ++
        str "Final Answer: " ++ (if answer then TRUE else FALSE) ++ nl ++
        END ++ nl).

(** [example.input ?? null] *)
Definition input_or_null (v : jsvalue) : jsvalue :=
  match v with VUndefined => VNull | _ => v end.

Definition formatExample (env : Env) (hasUserExamples : bool) (condition : jsstring)
    (exampleId : Z) (example : Example) : list Message * Z :=
  let '(text, exampleId') :=
    formatInput hasUserExamples exampleId
      (stringify env (input_or_null (ex_input example)))
      (nullish (ex_condition example) condition) in
  ([ {| content := text; msg_role := user |};
     {| content := formatOutput (ex_check example) (nullish (ex_reason example) []);
        msg_role := assistant |} ],
   exampleId').

(** [.map(formatExample).flat()] *)
Fixpoint formatExamples (env : Env) (hasUserExamples : bool) (condition : jsstring)
    (exampleId : Z) (l : list Example) : list Message * Z :=
  match l with
  | [] => ([], exampleId)
  | example :: rest =>
      let '(msgs, exampleId') :=
        formatExample env hasUserExamples condition exampleId example in
      let '(msgs', exampleId'') :=
        formatExamples env hasUserExamples condition exampleId' rest in
      (msgs ++ msgs', exampleId'')
  end.

Definition specialInstructions (hasUserExamples : bool) : jsstring :=
  if hasUserExamples then
    trim (nl ++
      str "- You have been provided with examples from previous experts. Make sure to read them carefully before making your decision." ++ nl ++
      str "- Make sure to refer to the examples provided by the experts to justify your decision (when applicable)." ++ nl ++
      str "- When in doubt, ground your decision on the examples provided by the experts instead of your own intuition." ++ nl ++
      str "- When no example is similar to the input, make sure to provide a clear justification for your decision while inferring the decision-making process from the examples provided by the experts." ++ nl)
  else [].

Definition make_systemPrompt (hasUserExamples : bool) (exampleId : Z) : jsstring :=
  trim (nl ++
    str "Check if the following condition is true or false for the given input. Before answering, make sure to read the input and the condition carefully." ++ nl ++
    str "Justify your answer, then answer with either " ++ TRUE ++ str " or " ++ FALSE ++
    str " at the very end, then add " ++ END ++ str " to finish the response." ++ nl ++
    str "IMPORTANT: Make sure to answer with either " ++ TRUE ++ str " or " ++ FALSE ++
    str " at the end of your response, but NOT both." ++ nl ++
    str "---" ++ nl ++
    str "Expert Examples (#1 to #" ++ number_toString (exampleId - 1) ++ str "):" ++ nl ++
    specialInstructions hasUserExamples ++ nl).

Definition make_question (hasUserExamples : bool) (exampleId : Z)
    (inputAsString condition : jsstring) : jsstring :=
  trim (nl ++
    str "Considering the below input and above examples, is the following condition true or false?" ++ nl ++
    fst (formatInput hasUserExamples exampleId inputAsString condition) ++ nl ++
    str "In your " ++ dq ++ str "Analysis" ++ dq ++
    str ", please refer to the Expert Examples # to justify your decision.").

(** The argument of [ctx.generateContent] (lines 184-204), without the
    [transform] callback. *)
Definition make_request (env : Env) (tokenizer : Tokenizer) (p : Prepared)
    (userExamples : list Example) : Request :=
  let hasUserExamples := match userExamples with [] => false | _ :: _ => true end in
  let '(allExamples, exampleId) :=
    formatExamples env hasUserExamples (condition' p) 1
      (packed env tokenizer userExamples (EXAMPLES_TOKENS p)) in
  {| systemPrompt := make_systemPrompt hasUserExamples exampleId;
     stopSequences := [END];
     messages := allExamples ++
       [ {| content := make_question hasUserExamples exampleId
                         (inputAsString p) (condition' p);
            msg_role := user |} ] |}.

(** ** The operation (lines 57-261) *)

Section Check.

Variable Store : Type.
Variable env : Env.

#[local] Open Scope check_scope.

(** [ctx.controller.signal.throwIfAborted()] *)
Definition throwIfAborted (ctx : ZaiContext Store) (at_ : checkpoint) : M Store unit :=
  if signal ctx at_ then throw Cancelled else ret tt.

(** [await getTokenizer()] *)
Definition getTokenizer : M Store Tokenizer :=
  emit EvGetTokenizer ;; ret (tokenizer env).

(** [await ctx.getModel()], read at [.input.maxTokens] *)
Definition getModel : M Store Z :=
  emit EvGetModel ;; ret (maxTokens env).

Definition adapter_getExamples (a : Adapter Store) (props : GetExamplesProps)
  : M Store (list Retrieved) :=
  fun w =>
    (getExamples a (store w) props,
     {| store := store w; trace := trace w ++ [EvGetExamples props] |}).

Definition adapter_saveExample (a : Adapter Store) (rec : SavedExample)
  : M Store unit :=
  fun w =>
    let '(r, store') := saveExample a (store w) rec in
    (r, {| store := store'; trace := trace w ++ [EvSaveExample rec] |}).

(** Modelled from the spec: [ctx.generateContent] of [../context], which is
    not among the sources.  It issues one completion request, applies
    [transform] to the text of the response and returns the extracted value
    with the completion's metadata; a failure of the provider or of
    [transform] is passed on, and nothing is retried. *)
Definition generateContent {X : Type} (req : Request)
    (transform : jsstring -> result X) : M Store (X * Meta) :=
  emit (EvGenerate req) ;;
  match generate env req with
  | Ok (text, meta) =>
      match transform text with
      | Ok extracted => ret (extracted, meta)
      | Err e => throw e
      end
  | Err e => throw e
  end.

(** A [taskId] that passes [taskId && ...]: a non-empty string. *)
Definition truthy (taskId : option jsstring) : option jsstring :=
  match taskId with
  | Some (c :: t) => Some (c :: t)
  | _ => None
  end.

Definition check (input : jsvalue) (condition : jsstring)
    (options : ParsedOptions) (ctx : ZaiContext Store) : M Store CheckResult :=
  throwIfAborted ctx AtEntry ;;
  tokenizer <- getTokenizer ;;
  model_maxTokens <- getModel ;;
  let p := prepare env tokenizer model_maxTokens (taskId ctx) input condition in
  examples <-
    match truthy (taskId ctx), adapter ctx with
    | Some taskId, Some a =>
        adapter_getExamples a
          {| g_input := inputAsString p; g_taskType := taskType; g_taskId := taskId |}
    | _, _ => ret []
    end ;;
  match find (fun x => jsstring_eqb (key x) (Key p)) examples with
  | Some exactMatch =>
      ret {| explanation := nullish (r_explanation exactMatch) [];
             value := r_output exactMatch |}
  | None =>
      let userExamples := userExamples examples options in
      r <- generateContent (make_request env tokenizer p userExamples) transform ;;
      let '(extracted, meta) := r in
      match truthy (taskId ctx), adapter ctx, signal ctx AfterGenerate with
      | Some taskId, Some a, false =>
          adapter_saveExample a
            {| s_key := Key p;
               s_taskType := taskType;
               s_taskId := taskId;
               s_input := inputAsString p;
               s_instructions := condition' p;
               s_metadata :=
                 {| m_cost_input := cost_input meta;
                    m_cost_output := cost_output meta;
                    m_latency := latency meta;
                    m_model := modelId ctx;
                    m_tokens_input := tokens_input meta;
                    m_tokens_output := tokens_output meta |};
               s_output := finalAnswer extracted;
               s_explanation := x_explanation extracted |}
      | _, _, _ => ret tt
      end ;;
      ret {| value := finalAnswer extracted;
             explanation := trim (x_explanation extracted) |}
  end.

(** [Zai.prototype.check], as far as the result of the wrapped promise. *)
Record Zai : Type := mkZai {
  zai_Model : jsstring;
  zai_taskId : option jsstring;
  zai_adapter : option (Adapter Store)
}.

Definition Zai_check (this : Zai) (input : jsvalue) (condition : jsstring)
    (_options : option Options) (signal : checkpoint -> bool) : M Store CheckResult :=
  let options := _Options_parse (nullish _options {| examples := None |}) in
  let context :=
    {| taskId := zai_taskId this;
       modelId := zai_Model this;
       adapter := zai_adapter this;
       signal := signal |} in
  check input condition options context.

End Check.

(** ** Notions used to state the properties *)

Unset Implicit Arguments.

Section Cost.

Context {T : Type}.
Variable cost : T -> Z.
Variable tokens : Z.

(** The accumulated cost of a list of examples. *)
Fixpoint sum_cost (l : list T) : Z :=
  match l with
  | [] => 0
  | el :: rest => cost el + sum_cost rest
  end.

(** The running total stays within the budget at every example of [l]. *)
Definition within_budget (l : list T) : Prop :=
  forall k, (1 <= k <= length l)%nat -> sum_cost (firstn k l) <= tokens.

End Cost.

Section Invocation.

Variable Store : Type.
Variable env : Env.
Variable input : jsvalue.
Variable condition : jsstring.
Variable ctx : ZaiContext Store.

(** What [check] has computed when it turns to the store. *)
Definition prepared : Prepared :=
  prepare env (tokenizer env) (maxTokens env) (taskId ctx) input condition.

(** The argument of its [getExamples] call. *)
Definition props_for (tid : jsstring) : GetExamplesProps :=
  {| g_input := inputAsString prepared; g_taskType := taskType; g_taskId := tid |}.

(** The test of line 104. *)
Definition is_exact_match (x : Retrieved) : bool :=
  jsstring_eqb (key x) (Key prepared).

(** The request it sends to the model after retrieving [examples]. *)
Definition request_for (examples : list Retrieved) (options : ParsedOptions) : Request :=
  make_request env (tokenizer env) prepared (userExamples examples options).

(** The record it hands to [saveExample]. *)
Definition record_for (tid : jsstring) (extracted : Extracted) (meta : Meta)
  : SavedExample :=
  {| s_key := Key prepared;
     s_taskType := taskType;
     s_taskId := tid;
     s_input := inputAsString prepared;
     s_instructions := condition' prepared;
     s_metadata :=
       {| m_cost_input := cost_input meta;
          m_cost_output := cost_output meta;
          m_latency := latency meta;
          m_model := modelId ctx;
          m_tokens_input := tokens_input meta;
          m_tokens_output := tokens_output meta |};
     s_output := finalAnswer extracted;
     s_explanation := x_explanation extracted |}.

(** The world [w] after further calls, the store untouched. *)
Definition after (w : World Store) (events : list event) : World Store :=
  {| store := store w; trace := trace w ++ events |}.

(** The retrieval of lines 95-102: its result and the calls it makes. *)
Definition lookup (w : World Store) : result (list Retrieved) * list event :=
  match truthy (taskId ctx), adapter ctx with
  | Some tid, Some a =>
      (getExamples a (store w) (props_for tid), [EvGetExamples (props_for tid)])
  | _, _ => (Ok [], [])
  end.

(** The same context with another cancellation signal. *)
Definition with_signal (sig : checkpoint -> bool) : ZaiContext Store :=
  {| taskId := taskId ctx;
     modelId := modelId ctx;
     adapter := adapter ctx;
     signal := sig |}.

End Invocation.

Arguments prepared {Store} env input condition ctx.
Arguments props_for {Store} env input condition ctx tid.
Arguments is_exact_match {Store} env input condition ctx x.
Arguments request_for {Store} env input condition ctx examples options.
Arguments record_for {Store} env input condition ctx tid extracted meta.
Arguments lookup {Store} env input condition ctx w.
Arguments after {Store} w events.
Arguments with_signal {Store} ctx sig.

(** The result built from a parsed response (lines 257-260). *)
Definition verdict (x : Extracted) : CheckResult :=
  {| value := finalAnswer x; explanation := trim (x_explanation x) |}.

(** ** A concrete instance

    A tokenizer with one token per code unit, a store that is the list of
    the records saved so far, and a model with a fixed answer. *)

Module Sample.

Definition tok : Tokenizer :=
  {| count := fun s => Z.of_nat (length s);
     truncate := fun s n => firstn (Z.to_nat n) s |}.

Definition render (v : jsvalue) : jsstring :=
  match v with
  | VString (c :: s) => c :: s
  | _ => str "<input is null, false, undefined or empty>"
  end.

Definition meta : Meta :=
  {| cost_input := 3; cost_output := 1; latency := 120;
     tokens_input := 300; tokens_output := 12 |}.

Definition answer : jsstring :=
  str "Analysis: 50 Cent is a rapper. Final Answer: " ++ TRUE.

Definition env : Env :=
  {| tokenizer := tok;
     maxTokens := 4096;
     PROMPT_INPUT_BUFFER := 1048;
     stringify := render;
     fastHash := fun s => s;
     generate := fun _ => Ok (answer, meta) |}.

Definition Store : Type := list SavedExample.

Definition retrieved_of_saved (s : SavedExample) : Retrieved :=
  {| key := s_key s;
     r_input := s_input s;
     r_output := s_output s;
     r_explanation := Some (s_explanation s) |}.

Definition same_task (props : GetExamplesProps) (s : SavedExample) : bool :=
  jsstring_eqb (s_taskType s) (g_taskType props) &&
  jsstring_eqb (s_taskId s) (g_taskId props).

Definition memory_adapter : Adapter Store :=
  {| getExamples := fun st props =>
       Ok (map retrieved_of_saved (filter (same_task props) st));
     saveExample := fun st rec => (Ok tt, st ++ [rec]) |}.

(** An adapter whose writes are rejected. *)
Definition failing_adapter : Adapter Store :=
  {| getExamples := getExamples memory_adapter;
     saveExample := fun st _ => (Err (StoreFailure (str "table unavailable")), st) |}.

Definition never : checkpoint -> bool := fun _ => false.

Definition ctx : ZaiContext Store :=
  {| taskId := Some (str "celebrities");
     modelId := str "best";
     adapter := Some memory_adapter;
     signal := never |}.

Definition input : jsvalue := VString (str "50 Cent").

Definition condition : jsstring := str "Is the input a public personality?".

Definition options : ParsedOptions := {| opt_examples := [] |}.

Definition empty : World Store := {| store := []; trace := [] |}.

End Sample.

(** The sample store after one evaluation, and the record it then returns. *)
Definition warm : World Sample.Store :=
  snd (check Sample.env Sample.input Sample.condition Sample.options
         Sample.ctx Sample.empty).

Definition stored : Retrieved :=
  {| key := Key (prepared Sample.env Sample.input Sample.condition Sample.ctx);
     r_input := str "50 Cent";
     r_output := true;
     r_explanation := Some (str "50 Cent is a rapper.") |}.

(** The sample context with an adapter that rejects writes. *)
Definition rejecting_ctx : ZaiContext Sample.Store :=
  {| taskId := Some (str "celebrities");
     modelId := str "best";
     adapter := Some Sample.failing_adapter;
     signal := Sample.never |}.

(** The sample context without a task id. *)
Definition anonymous_ctx : ZaiContext Sample.Store :=
  {| taskId := None;
     modelId := str "best";
     adapter := Some Sample.memory_adapter;
     signal := Sample.never |}.

(** A caller that aborts while the model is answering. *)
Definition aborted_late (c : checkpoint) : bool :=
  match c with AfterGenerate | AfterSave => true | _ => false end.

(** Three caller examples of cost 4, 12 and 2. *)
Definition three_examples : list Example :=
  [ {| ex_input := VString (str "ab"); ex_check := true;
       ex_reason := Some (str "ok"); ex_condition := None |};
    {| ex_input := VString (str "abcdefgh"); ex_check := false;
       ex_reason := Some (str "long"); ex_condition := None |};
    {| ex_input := VString (str "a"); ex_check := true;
       ex_reason := Some (str "y"); ex_condition := None |} ].

(** A preparation that leaves ten tokens for the examples. *)
Definition ten_tokens : Prepared :=
  {| component := 100; inputAsString := str "x"; condition' := str "y";
     EXAMPLES_TOKENS := 10; Key := [] |}.

(** A preparation that leaves forty tokens for the examples. *)
Definition forty_tokens : Prepared :=
  {| component := 100; inputAsString := str "x"; condition' := str "y";
     EXAMPLES_TOKENS := 40; Key := [] |}.

(** A response with both markers, [FALSE] last. *)
Definition both_markers_false_last : jsstring :=
  str "It may be " ++ TRUE ++ str " but on reflection it is " ++ FALSE.

(** A response in which the [TRUE] marker occurs twice. *)
Definition repeated_marker_response : jsstring :=
  str "Analysis: yes " ++ TRUE ++ str " again " ++ TRUE.

(** ** Notions for the additional properties *)

(** Every character of [s] is white space. *)
Definition all_ws (s : jsstring) : bool := forallb is_ws s.

(** The character [c] does not occur in [s]. *)
Definition no_char (c : N) (s : jsstring) : bool :=
  forallb (fun x => negb (x =? c)%N) s.

(** The first character of the pattern does not occur in [a]. *)
Definition head_absent (pat a : jsstring) : bool :=
  match pat with
  | [] => false
  | p :: _ => no_char p a
  end.

(** An adapter that cannot be read. *)
Definition unreadable_adapter : Adapter Sample.Store :=
  {| getExamples := fun _ _ => Err (StoreFailure (str "table unavailable"));
     saveExample := saveExample Sample.memory_adapter |}.

(** The sample context over it. *)
Definition unreadable_ctx : ZaiContext Sample.Store :=
  {| taskId := Some (str "celebrities");
     modelId := str "best";
     adapter := Some unreadable_adapter;
     signal := Sample.never |}.

(** The sample environment with a model that gives no verdict. *)
Definition undecided_env : Env :=
  {| tokenizer := Sample.tok;
     maxTokens := 4096;
     PROMPT_INPUT_BUFFER := 1048;
     stringify := Sample.render;
     fastHash := fun s => s;
     generate := fun _ => Ok (str "I cannot tell.", Sample.meta) |}.

(** The sample context with a task id and no adapter. *)
Definition detached_ctx : ZaiContext Sample.Store :=
  {| taskId := Some (str "celebrities");
     modelId := str "best";
     adapter := None;
     signal := Sample.never |}.

(** An environment whose model allows 100 prompt tokens, so that the input
    is cut after 50 code units. *)
Definition narrow_env : Env :=
  {| tokenizer := Sample.tok;
     maxTokens := 1148;
     PROMPT_INPUT_BUFFER := 1048;
     stringify := Sample.render;
     fastHash := fun s => s;
     generate := fun _ => Ok (Sample.answer, Sample.meta) |}.

(** Fifty letters. *)
Definition fifty : jsstring := repeat 97%N 50.

(** The fixed parts of the system prompt and of the final question. *)
Definition systemPrompt_preamble : jsstring :=
  str "Check if the following condition is true or false for the given input. Before answering, make sure to read the input and the condition carefully." ++ nl ++
  str "Justify your answer, then answer with either " ++ TRUE ++ str " or " ++ FALSE ++
  str " at the very end, then add " ++ END ++ str " to finish the response." ++ nl ++
  str "IMPORTANT: Make sure to answer with either " ++ TRUE ++ str " or " ++ FALSE ++
  str " at the end of your response, but NOT both." ++ nl ++
  str "---" ++ nl ++
  str "Expert Examples (#1 to #".

Definition question_opening : jsstring :=
  str "Considering the below input and above examples, is the following condition true or false?".

Definition question_closing : jsstring :=
  str "In your " ++ dq ++ str "Analysis" ++ dq ++
  str ", please refer to the Expert Examples # to justify your decision.".

(** ** Facts about the string operations *)

Section StringFacts.

Variable pat : jsstring.

Lemma startsWith_iff (text : jsstring) :
  startsWith pat text = true <-> exists post, text = pat ++ post.
Proof.
  revert text. induction pat as [|p pat' IH]; intros text; simpl.
  - split; [intros _; now exists text | reflexivity].
  - destruct text as [|c text'].
    + split; [discriminate | intros [post H]; discriminate].
    + rewrite andb_true_iff, N.eqb_eq, IH. split.
      * intros [-> [post ->]]. now exists post.
      * intros [post H]. injection H as -> ->. split; [reflexivity | now exists post].
Qed.

Lemma includes_cons (c : N) (text : jsstring) :
  includes pat (c :: text) = startsWith pat (c :: text) || includes pat text.
Proof. reflexivity. Qed.

Lemma includes_iff (text : jsstring) :
  includes pat text = true <-> occurs pat text.
Proof.
  split.
  - induction text as [|c text' IH].
    + simpl. rewrite orb_false_r. intros H.
      apply startsWith_iff in H as [post H]. now exists [], post.
    + rewrite includes_cons, orb_true_iff. intros [H|H].
      * apply startsWith_iff in H as [post H]. now exists [], post.
      * destruct (IH H) as (pre & post & ->). now exists (c :: pre), post.
  - intros (pre & post & ->). induction pre as [|c pre' IH].
    + assert (H : startsWith pat ([] ++ pat ++ post) = true)
        by (apply startsWith_iff; now exists post).
      destruct ([] ++ pat ++ post); simpl in *; now rewrite H.
    + change ((c :: pre') ++ pat ++ post) with (c :: pre' ++ pat ++ post).
      rewrite includes_cons, IH. apply orb_true_r.
Qed.

Lemma includes_skipn (n : nat) (text : jsstring) :
  startsWith pat (skipn n text) = true -> includes pat text = true.
Proof.
  revert text. induction n as [|n IH]; intros text H.
  - simpl in H. destruct text; simpl in *; now rewrite H.
  - destruct text as [|c text'].
    + simpl in *. now rewrite H.
    + rewrite includes_cons. simpl in H. rewrite (IH _ H). apply orb_true_r.
Qed.

Lemma skipn_cons_Z (j : Z) (c : N) (text : jsstring) :
  1 <= j -> skipn (Z.to_nat j) (c :: text) = skipn (Z.to_nat (j - 1)) text.
Proof.
  intros H. replace (Z.to_nat j) with (S (Z.to_nat (j - 1))) by lia. reflexivity.
Qed.

(** [lastIndexOf] is -1 exactly when the pattern does not occur, and
    otherwise the start of its last occurrence. *)
Lemma lastIndexOf_from_spec (text : jsstring) :
  forall i, 0 <= i ->
    let r := lastIndexOf_from pat text i in
    (includes pat text = false /\ r = -1) \/
    (includes pat text = true /\
     i <= r <= i + Z.of_nat (length text) /\
     startsWith pat (skipn (Z.to_nat (r - i)) text) = true /\
     forall j, 0 <= j <= Z.of_nat (length text) ->
       startsWith pat (skipn (Z.to_nat j) text) = true -> i + j <= r).
Proof.
  induction text as [|c text' IH]; intros i Hi; cbv zeta.
  - simpl. rewrite orb_false_r. destruct (startsWith pat []) eqn:E.
    + right. rewrite Z.sub_diag. simpl.
      split; [reflexivity | split; [lia | split; [exact E | intros j Hj _; lia]]].
    + now left.
  - rewrite includes_cons. simpl lastIndexOf_from.
    specialize (IH (i + 1) ltac:(lia)). cbv zeta in IH.
    destruct IH as [[Hinc Hr] | (Hinc & Hb & Hs & Hmax)].
    + rewrite Hr, Hinc, orb_false_r. change (0 <=? -1) with false. cbv iota.
      destruct (startsWith pat (c :: text')) eqn:E; [right | now left].
      rewrite Z.sub_diag. change (skipn (Z.to_nat 0) (c :: text')) with (c :: text').
      split; [reflexivity | split; [lia | split; [exact E|]]].
      intros j Hj Hsj. destruct (Z.eq_dec j 0) as [->|Hne]; [lia|].
      rewrite skipn_cons_Z in Hsj by lia.
      apply includes_skipn in Hsj. congruence.
    + rewrite Hinc, orb_true_r.
      replace (0 <=? lastIndexOf_from pat text' (i + 1)) with true
        by (symmetry; apply Z.leb_le; lia).
      right.
      split; [reflexivity | split; [simpl length; lia | split]].
      * rewrite skipn_cons_Z by lia.
        replace (lastIndexOf_from pat text' (i + 1) - i - 1)
          with (lastIndexOf_from pat text' (i + 1) - (i + 1)) by lia.
        exact Hs.
      * intros j Hj Hsj. destruct (Z.eq_dec j 0) as [->|Hne]; [lia|].
        rewrite skipn_cons_Z in Hsj by lia.
        simpl length in Hj.
        specialize (Hmax (j - 1) ltac:(lia) Hsj). lia.
Qed.

Lemma lastIndexOf_absent (text : jsstring) :
  includes pat text = false -> lastIndexOf pat text = -1.
Proof.
  intros H. unfold lastIndexOf.
  destruct (@lastIndexOf_from_spec text 0 ltac:(lia)) as [[_ Hr] | [Hinc _]];
    [exact Hr | congruence].
Qed.

Lemma lastIndexOf_last_occurrence (text : jsstring) :
  includes pat text = true -> last_occurrence pat text (lastIndexOf pat text).
Proof.
  intros H. unfold lastIndexOf.
  destruct (@lastIndexOf_from_spec text 0 ltac:(lia))
    as [[Hinc _] | (_ & Hb & Hs & Hmax)]; [congruence|].
  rewrite Z.sub_0_r in Hs. split.
  - split; [lia | exact Hs].
  - intros j [Hj Hsj]. specialize (Hmax j Hj Hsj). lia.
Qed.

Lemma last_occurrence_unique (text : jsstring) (i j : Z) :
  last_occurrence pat text i -> last_occurrence pat text j -> i = j.
Proof.
  intros [Hi Hmi] [Hj Hmj]. specialize (Hmi j Hj). specialize (Hmj i Hi). lia.
Qed.

End StringFacts.

(** ** The verdict parser *)

Lemma markers_start_apart (text : jsstring) (i : Z) :
  occurs_at TRUE text i -> occurs_at FALSE text i -> False.
Proof.
  intros [_ HT] [_ HF].
  apply startsWith_iff in HT as [postT HT].
  apply startsWith_iff in HF as [postF HF].
  rewrite HT in HF. discriminate HF.
Qed.

Lemma transform_present (text : jsstring) :
  includes TRUE text || includes FALSE text = true ->
  transform text =
    Ok {| finalAnswer :=
            if includes TRUE text && includes FALSE text
            then lastIndexOf FALSE text <? lastIndexOf TRUE text
            else includes TRUE text;
          x_explanation :=
            trim (trim (replace (str "Analysis:") []
                       (replace (str "Final Answer:") []
                       (replace END []
                       (replace FALSE []
                       (replace TRUE [] text)))))) |}.
Proof.
  intros H. unfold transform.
  destruct (includes TRUE text), (includes FALSE text);
    try discriminate H; reflexivity.
Qed.

Lemma transform_absent (text : jsstring) :
  includes TRUE text = false -> includes FALSE text = false ->
  transform text = Err (MalformedVerdict (malformed_message text)).
Proof. intros HT HF. unfold transform. now rewrite HT, HF. Qed.

(** C2: when the response contains both markers, the verdict is decided by
    the last occurrences: it is [true] exactly when the last [TRUE] marker
    starts after the last [FALSE] marker, and [false] exactly when the last
    [FALSE] marker starts after the last [TRUE] marker. *)
Theorem transform_both_markers_last_wins (text : jsstring) :
  occurs TRUE text -> occurs FALSE text ->
  exists iT iF e,
    last_occurrence TRUE text iT /\
    last_occurrence FALSE text iF /\
    transform text = Ok e /\
    (finalAnswer e = true <-> iF < iT) /\
    (finalAnswer e = false <-> iT < iF).
Proof.
  intros HT HF.
  apply includes_iff in HT. apply includes_iff in HF.
  pose proof (lastIndexOf_last_occurrence TRUE text HT) as LT.
  pose proof (lastIndexOf_last_occurrence FALSE text HF) as LF.
  exists (lastIndexOf TRUE text), (lastIndexOf FALSE text).
  eexists. split; [exact LT | split; [exact LF | split]].
  - rewrite transform_present by (now rewrite HT). rewrite HT, HF. reflexivity.
  - cbn [finalAnswer andb].
    assert (Hne : lastIndexOf TRUE text <> lastIndexOf FALSE text).
    { intros E. destruct LT as [LT _], LF as [LF _]. rewrite E in LT.
      exact (markers_start_apart _ _ LT LF). }
    split; [apply Z.ltb_lt|].
    destruct (Z.ltb_spec (lastIndexOf FALSE text) (lastIndexOf TRUE text));
      split; intros; try lia; try discriminate; reflexivity.
Qed.

Lemma transform_both_markers_last_wins_witness :
  exists iT iF e,
    last_occurrence TRUE both_markers_false_last iT /\
    last_occurrence FALSE both_markers_false_last iF /\
    transform both_markers_false_last = Ok e /\
    (finalAnswer e = true <-> iF < iT) /\
    (finalAnswer e = false <-> iT < iF).
Proof.
  apply (transform_both_markers_last_wins both_markers_false_last).
  - exists (str "It may be "), (str " but on reflection it is " ++ FALSE). reflexivity.
  - exists (str "It may be " ++ TRUE ++ str " but on reflection it is "), []. reflexivity.
Defined.

(** C3: a response with neither marker makes the parse step fail with the
    malformed-verdict error, and a response with at least one marker is
    parsed without failure. *)
Theorem transform_fails_iff_no_marker (text : jsstring) :
  (~ occurs TRUE text -> ~ occurs FALSE text ->
   transform text = Err (MalformedVerdict (malformed_message text))) /\
  (occurs TRUE text \/ occurs FALSE text -> exists e, transform text = Ok e).
Proof.
  split.
  - intros HT HF. apply transform_absent.
    + destruct (includes TRUE text) eqn:E; [|reflexivity].
      apply includes_iff in E. contradiction.
    + destruct (includes FALSE text) eqn:E; [|reflexivity].
      apply includes_iff in E. contradiction.
  - intros H. eexists. apply transform_present.
    apply orb_true_iff. destruct H as [H|H]; [left|right]; now apply includes_iff.
Qed.

Lemma transform_fails_iff_no_marker_witness :
  transform (str "I cannot tell.") =
    Err (MalformedVerdict (malformed_message (str "I cannot tell."))) /\
  exists e, transform (str "Sure: " ++ FALSE) = Ok e.
Proof.
  split.
  - apply (transform_fails_iff_no_marker (str "I cannot tell."));
      intros H; apply includes_iff in H; vm_compute in H; discriminate H.
  - apply (transform_fails_iff_no_marker (str "Sure: " ++ FALSE)).
    right. exists (str "Sure: "), []. reflexivity.
Defined.

(** C5: on a response that repeats a marker the explanation returned by
    [transform] still contains the second occurrence, while the explanation
    with every occurrence removed does not. *)
Theorem transform_keeps_repeated_marker :
  transform repeated_marker_response =
    Ok {| finalAnswer := true; x_explanation := str "yes  again " ++ TRUE |} /\
  spec_explanation repeated_marker_response = str "yes  again" /\
  transform repeated_marker_response <>
    Ok {| finalAnswer := true;
          x_explanation := spec_explanation repeated_marker_response |}.
Proof.
  split; [vm_compute; reflexivity | split; [vm_compute; reflexivity |]].
  vm_compute. intros H. discriminate H.
Qed.

(** ** The budget *)

Lemma round_to_double_spec (n : Z) :
  0 < n ->
  exists s q,
    0 <= s /\ round_to_double n = q * 2 ^ s /\
    n < 2 ^ s * 2 ^ 53 /\
    (s = 0 \/ 2 ^ s * 2 ^ 52 <= n) /\
    2 * (round_to_double n - n) <= 2 ^ s /\
    2 * (n - round_to_double n) <= 2 ^ s /\
    (s = 0 -> round_to_double n = n).
Proof.
  intros Hn. unfold round_to_double.
  pose proof (Z.log2_spec n Hn) as [Hlo Hhi].
  destruct (Z.leb_spec (Z.log2 n - 52) 0) as [Hs|Hs].
  - exists 0, n. rewrite Z.pow_0_r.
    assert (2 ^ Z.succ (Z.log2 n) <= 2 ^ 53)
      by (apply Z.pow_le_mono_r; lia).
    repeat split; lia.
  - set (s := Z.log2 n - 52) in *.
    assert (HP : 2 ^ (Z.log2 n) = 2 ^ s * 2 ^ 52)
      by (rewrite <- Z.pow_add_r by lia; f_equal; lia).
    assert (HP1 : 2 ^ Z.succ (Z.log2 n) = 2 ^ s * 2 ^ 53)
      by (rewrite <- Z.pow_add_r by lia; f_equal; lia).
    assert (Hhalf : 2 ^ s = 2 * 2 ^ (s - 1)).
    { replace s with (1 + (s - 1)) at 1 by lia.
      rewrite Z.pow_add_r by lia. reflexivity. }
    assert (Hpos : 0 < 2 ^ (s - 1)) by (apply Z.pow_pos_nonneg; lia).
    set (P := 2 ^ s) in *. set (half := 2 ^ (s - 1)) in *.
    pose proof (Z.div_mod n P ltac:(lia)) as Hdm.
    pose proof (Z.mod_pos_bound n P ltac:(lia)) as Hrem.
    set (q := n / P) in *. set (rem := n mod P) in *.
    eexists s, _. split; [lia | split; [reflexivity |]].
    split; [lia | split; [right; lia |]].
    destruct (Z.ltb_spec rem half); [|destruct (Z.ltb_spec half rem);
      [|destruct (Z.even q)]]; repeat split; lia.
Qed.

Lemma times_0_2_pos (c : Z) :
  0 < c -> times_0_2 c = round_to_double (c * double_0_2).
Proof.
  intros H. unfold times_0_2. rewrite Z.sgn_pos, Z.abs_eq by lia. lia.
Qed.

(** Whatever the size of [c], the floor of the rounded product is between
    an eighth and a quarter of [c]. *)
Lemma PROMPT_TOKENS_CONDITION_bounds (c : Z) :
  0 < c ->
  4 * PROMPT_TOKENS_CONDITION c <= c /\ c <= 8 * (PROMPT_TOKENS_CONDITION c + 1).
Proof.
  intros Hc. unfold PROMPT_TOKENS_CONDITION.
  rewrite (times_0_2_pos c Hc).
  assert (Hn : 0 < c * double_0_2) by (unfold double_0_2; lia).
  destruct (round_to_double_spec _ Hn)
    as (s & q & Hs & HR & Hhi & Hlo & Hup & Hdown & H0).
  set (R := round_to_double (c * double_0_2)) in *.
  assert (Herr : 2 ^ 53 * (R - c * double_0_2) <= c * double_0_2 /\
                 2 ^ 53 * (c * double_0_2 - R) <= c * double_0_2).
  { destruct Hlo as [-> | Hlo]; [rewrite (H0 eq_refl); lia |].
    change (2 ^ 53) with (2 * 2 ^ 52). lia. }
  pose proof (Z.div_mod R (2 ^ 54) ltac:(lia)) as Hdm.
  pose proof (Z.mod_pos_bound R (2 ^ 54) ltac:(lia)) as Hrem.
  unfold double_0_2 in *.
  change (2 ^ 54) with 18014398509481984 in *.
  change (2 ^ 53) with 9007199254740992 in *.
  lia.
Qed.

(** Below [2^50] the product rounds to a double with the integer part of
    the exact fifth. *)
Lemma PROMPT_TOKENS_CONDITION_exact (c : Z) :
  0 < c < 2 ^ 50 -> PROMPT_TOKENS_CONDITION c = c / 5.
Proof.
  intros Hc. unfold PROMPT_TOKENS_CONDITION.
  rewrite (times_0_2_pos c ltac:(lia)).
  assert (Hn : 0 < c * double_0_2) by (unfold double_0_2; lia).
  destruct (round_to_double_spec _ Hn)
    as (s & q & Hs & HR & Hhi & Hlo & Hup & Hdown & H0).
  set (R := round_to_double (c * double_0_2)) in *.
  pose proof (Z.div_mod c 5 ltac:(lia)) as Hc5.
  pose proof (Z.mod_pos_bound c 5 ltac:(lia)) as Ht.
  set (x := c / 5) in *. set (t := c mod 5) in *.
  assert (H5 : 5 * (c * double_0_2) = c * 2 ^ 54 + c) by (unfold double_0_2; lia).
  symmetry. apply (Z.div_unique R (2 ^ 54) x (R - x * 2 ^ 54)); [|lia].
  left.
  destruct Hlo as [-> | Hlo].
  { rewrite (H0 eq_refl) in *. change (2 ^ 54) with 18014398509481984 in *.
    change (2 ^ 50) with 1125899906842624 in *. lia. }
  assert (Hs50 : s < 50).
  { apply (Z.pow_lt_mono_r_iff 2); [lia | lia |].
    unfold double_0_2 in *.
    change (2 ^ 52) with 4503599627370496 in *.
    change (2 ^ 50) with 1125899906842624 in *. lia. }
  assert (HP50 : 2 ^ s < 2 ^ 50) by (apply Z.pow_lt_mono_r; lia).
  assert (HD : 2 ^ 54 = 2 ^ (54 - s) * 2 ^ s)
    by (rewrite <- Z.pow_add_r by lia; f_equal; lia).
  assert (HPpos : 0 < 2 ^ s) by (apply Z.pow_pos_nonneg; lia).
  set (P := 2 ^ s) in *. set (D := 2 ^ (54 - s)) in *.
  split.
  - destruct (Z.eq_dec t 0) as [Ht0 | Ht0].
    + destruct (Z_lt_le_dec q (x * D)) as [Hlt | Hge].
      * exfalso.
        assert (Hmul : (q + 1) * P <= x * D * P)
          by (apply Z.mul_le_mono_nonneg_r; lia).
        assert (E : x * D * P = x * 2 ^ 54) by (rewrite HD; ring).
        change (2 ^ 54) with 18014398509481984 in *. lia.
      * assert (Hmul : x * D * P <= q * P)
          by (apply Z.mul_le_mono_nonneg_r; lia).
        assert (E : x * D * P = x * 2 ^ 54) by (rewrite HD; ring).
        lia.
    + change (2 ^ 54) with 18014398509481984 in *.
      change (2 ^ 50) with 1125899906842624 in *. lia.
  - change (2 ^ 54) with 18014398509481984 in *.
    change (2 ^ 52) with 4503599627370496 in *.
    change (2 ^ 50) with 1125899906842624 in *.
    unfold double_0_2 in *. lia.
Qed.

(** The rounding agrees with the IEEE 754 multiplication of the Standard
    Library on small, large and negative integers, the first one at which
    the floor exceeds the exact fifth among them. *)
Lemma PROMPT_TOKENS_CONDITION_is_IEEE :
  forallb
    (fun c => match IEEE_floor_times_0_2 c with
              | Some n => n =? PROMPT_TOKENS_CONDITION c
              | None => false
              end)
    [0; 1; 4; 5; 99; 100; 101; 3048; 127000; 1048576; 2 ^ 31 + 3;
     2 ^ 50 - 1; 2 ^ 50; 6755399441055744; 6755399441055749;
     7000000000000004; 2 ^ 53 - 1; 2 ^ 53; 2 ^ 60; -1; -5; -3048] = true.
Proof. vm_compute. reflexivity. Qed.

Lemma PROMPT_TOKENS_CONDITION_rounds_up :
  PROMPT_TOKENS_CONDITION 7000000000000004 = 7000000000000004 / 5 + 1.
Proof. vm_compute. reflexivity. Qed.


Lemma sample_truncate_within (t : jsstring) (n : Z) :
  0 <= n -> count Sample.tok (truncate Sample.tok t n) <= n.
Proof.
  intros Hn. cbn [count truncate Sample.tok].
  pose proof (firstn_le_length (Z.to_nat n) t). lia.
Qed.


(** ** Packing *)

Section Packing.

Context {T : Type}.
Variable cost : T -> Z.
Variable tokens : Z.

Lemma sum_cost_app (l1 l2 : list T) :
  sum_cost cost (l1 ++ l2) = sum_cost cost l1 + sum_cost cost l2.
Proof. induction l1 as [|a l1 IH]; simpl; [reflexivity | rewrite IH; lia]. Qed.

Lemma takeUntilTokens_from_spec (arr : list T) :
  forall total,
    let r := takeUntilTokens_from arr tokens cost total in
    exists rest,
      arr = r ++ rest /\
      (forall k, (1 <= k <= length r)%nat ->
         total + sum_cost cost (firstn k r) <= tokens) /\
      (forall el rest', rest = el :: rest' ->
         tokens < total + sum_cost cost r + cost el).
Proof.
  induction arr as [|a arr IH]; intros total; cbv zeta; simpl takeUntilTokens_from.
  - exists []. split; [reflexivity | split].
    + intros k Hk. simpl in Hk. lia.
    + intros el rest' H. discriminate H.
  - destruct (Z.ltb_spec tokens (total + cost a)) as [Hlt|Hge].
    + exists (a :: arr). split; [reflexivity | split].
      * intros k Hk. simpl in Hk. lia.
      * intros el rest' H. injection H as <- _. simpl. lia.
    + destruct (IH (total + cost a)) as (rest & Harr & Hrun & Hnext).
      exists rest. split; [simpl; now rewrite <- Harr | split].
      * intros k Hk. destruct k as [|k]; [lia|].
        simpl firstn. simpl sum_cost.
        destruct k as [|k].
        -- simpl. lia.
        -- simpl length in Hk. specialize (Hrun (S k) ltac:(lia)). lia.
      * intros el rest' H. specialize (Hnext el rest' H). simpl sum_cost. lia.
Qed.

Lemma takeUntilTokens_spec (arr : list T) :
  let r := takeUntilTokens arr tokens cost in
  exists rest,
    arr = r ++ rest /\
    within_budget cost tokens r /\
    (forall el rest', rest = el :: rest' -> tokens < sum_cost cost r + cost el) /\
    (forall q tail, arr = q ++ tail -> within_budget cost tokens q ->
       (length q <= length r)%nat).
Proof.
  cbv zeta. unfold takeUntilTokens.
  destruct (takeUntilTokens_from_spec arr 0) as (rest & Harr & Hrun & Hnext).
  cbv zeta in Harr, Hrun, Hnext.
  set (r := takeUntilTokens_from arr tokens cost 0) in *.
  exists rest. split; [exact Harr | split; [| split]].
  - intros k Hk. specialize (Hrun k Hk). lia.
  - intros el rest' H. specialize (Hnext el rest' H). lia.
  - intros q tail Hq Hwithin.
    destruct (Nat.le_gt_cases (length q) (length r)) as [Hle|Hgt]; [exact Hle|].
    exfalso. destruct rest as [|el rest'].
    + rewrite app_nil_r in Harr. rewrite Harr in Hq at 1.
      apply (f_equal (@List.length T)) in Hq. rewrite length_app in Hq. lia.
    + specialize (Hnext el rest' eq_refl).
      specialize (Hwithin (S (length r)) ltac:(lia)).
      assert (E : firstn (S (length r)) q = r ++ [el]).
      { assert (E1 : firstn (S (length r)) (q ++ tail) = firstn (S (length r)) q).
        { rewrite firstn_app.
          replace (S (length r) - length q)%nat with 0%nat by lia.
          simpl. apply app_nil_r. }
        rewrite <- E1, <- Hq, Harr.
        rewrite firstn_app, firstn_all2 by lia.
        replace (S (length r) - length r)%nat with 1%nat by lia. reflexivity. }
      rewrite E, sum_cost_app in Hwithin. simpl in Hwithin. lia.
Qed.

End Packing.

(** C7: the candidates are the examples retrieved from the store, each
    mapped to the [Example] with its input, its output as verdict, its
    explanation as reason and no condition of its own, followed by the
    caller's examples, or the built-in examples when there are none; the
    packed examples are the longest prefix of the candidates whose running
    cost, the token count of the serialized input plus that of the
    explanation, stays within the budget: the example after the prefix, if
    any, would exceed it, and the request to the model carries exactly the
    packed examples before the question. *)
Theorem packing_is_longest_affordable_prefix
    (env : Env) (tok : Tokenizer) (p : Prepared)
    (examples : list Retrieved) (options : ParsedOptions) :
  let ue := userExamples examples options in
  let candidates := pool ue in
  let cost := example_cost env tok in
  let chosen := packed env tok ue (EXAMPLES_TOKENS p) in
  ue =
    map (fun e => {| ex_input := VString (r_input e);
                     ex_check := r_output e;
                     ex_reason := r_explanation e;
                     ex_condition := None |}) examples
    ++ opt_examples options /\
  (forall e, In e examples ->
     cost (example_of_retrieved e) =
       count tok (stringify env (VString (r_input e))) +
       count tok (nullish (r_explanation e) [])) /\
  (ue = [] -> candidates = defaultExamples) /\
  (ue <> [] -> candidates = ue) /\
  (forall el,
     cost el = count tok (stringify env (ex_input el)) +
               count tok (nullish (ex_reason el) [])) /\
  (exists rest,
     candidates = chosen ++ rest /\
     within_budget cost (EXAMPLES_TOKENS p) chosen /\
     (forall el rest', rest = el :: rest' ->
        EXAMPLES_TOKENS p < sum_cost cost chosen + cost el) /\
     (forall q tail, candidates = q ++ tail ->
        within_budget cost (EXAMPLES_TOKENS p) q ->
        (length q <= length chosen)%nat)) /\
  (exists question,
     messages (make_request env tok p ue) =
       fst (formatExamples env (negb (Nat.eqb (length ue) 0)) (condition' p) 1 chosen)
       ++ [question]).
Proof.
  cbv zeta.
  split; [reflexivity | split; [intros e _; reflexivity |]].
  split; [| split; [| split; [reflexivity | split]]].
  - intros H. now rewrite H.
  - intros H. destruct (userExamples examples options); [contradiction | reflexivity].
  - apply (takeUntilTokens_spec (example_cost env tok) (EXAMPLES_TOKENS p)
             (pool (userExamples examples options))).
  - unfold make_request.
    replace (negb (Nat.eqb (length (userExamples examples options)) 0))
      with (match userExamples examples options with [] => false | _ :: _ => true end)
      by (destruct (userExamples examples options); reflexivity).
    destruct (formatExamples _ _ _ _ _) as [allExamples exampleId].
    cbn [messages fst]. eexists. reflexivity.
Qed.

(** One retrieved record of cost 27 and three caller examples of cost 4,
    12 and 2 against a budget of 40: the record and the first caller
    example are packed, and the last, cheap one is not. *)
Lemma packing_is_longest_affordable_prefix_witness :
  userExamples [stored] {| opt_examples := three_examples |} =
    {| ex_input := VString (str "50 Cent");
       ex_check := true;
       ex_reason := Some (str "50 Cent is a rapper.");
       ex_condition := None |} :: three_examples /\
  packed Sample.env Sample.tok
    (userExamples [stored] {| opt_examples := three_examples |}) 40 =
    [ {| ex_input := VString (str "50 Cent");
         ex_check := true;
         ex_reason := Some (str "50 Cent is a rapper.");
         ex_condition := None |};
      {| ex_input := VString (str "ab"); ex_check := true;
         ex_reason := Some (str "ok"); ex_condition := None |} ] /\
  exists rest,
    pool (userExamples [stored] {| opt_examples := three_examples |}) =
      packed Sample.env Sample.tok
        (userExamples [stored] {| opt_examples := three_examples |}) 40 ++ rest.
Proof.
  destruct (packing_is_longest_affordable_prefix Sample.env Sample.tok forty_tokens
              [stored] {| opt_examples := three_examples |})
    as (Hue & _ & _ & _ & _ & (rest & Hrest & _) & _).
  split; [exact Hue | split; [reflexivity |]].
  exists rest. exact Hrest.
Defined.

(** ** Runs of [check] *)

Section Runs.

Variable Store : Type.
Variable env : Env.
Variable input : jsvalue.
Variable condition : jsstring.
Variable ctx : ZaiContext Store.

Ltac run :=
  cbv beta iota zeta delta
    [check bind ret throw emit throwIfAborted getTokenizer getModel
     adapter_getExamples adapter_saveExample generateContent after];
  cbn [store trace].

Ltac tidy := cbn [app]; rewrite <- ?app_assoc; cbn [app]; try reflexivity.

Lemma check_aborted_at_entry (options : ParsedOptions) (w : World Store) :
  signal ctx AtEntry = true ->
  check env input condition options ctx w = (Err Cancelled, w).
Proof. intros H. run. now rewrite H. Qed.

Lemma check_hit (options : ParsedOptions) (w : World Store)
    (tid : jsstring) (a : Adapter Store) (exs : list Retrieved) (r : Retrieved) :
  signal ctx AtEntry = false ->
  truthy (taskId ctx) = Some tid ->
  adapter ctx = Some a ->
  getExamples a (store w) (props_for env input condition ctx tid) = Ok exs ->
  find (is_exact_match env input condition ctx) exs = Some r ->
  check env input condition options ctx w =
    (Ok {| value := r_output r; explanation := nullish (r_explanation r) [] |},
     after w [EvGetTokenizer; EvGetModel; EvGetExamples (props_for env input condition ctx tid)]).
Proof.
  intros Hs Ht Ha Hg Hf. run. rewrite Hs, Ht, Ha. cbv beta iota. cbn [store trace].
  fold (prepared env input condition ctx). fold (props_for env input condition ctx tid). rewrite Hg. fold (is_exact_match env input condition ctx). rewrite Hf.
  tidy.
Qed.

Lemma check_lookup_hit (options : ParsedOptions) (w : World Store)
    (exs : list Retrieved) (evs : list event) (r : Retrieved) :
  signal ctx AtEntry = false ->
  lookup env input condition ctx w = (Ok exs, evs) ->
  find (is_exact_match env input condition ctx) exs = Some r ->
  check env input condition options ctx w =
    (Ok {| value := r_output r; explanation := nullish (r_explanation r) [] |},
     after w ([EvGetTokenizer; EvGetModel] ++ evs)).
Proof.
  intros Hs Hl Hf. unfold lookup in Hl. run. rewrite Hs. cbv beta iota.
  fold (prepared env input condition ctx). fold (is_exact_match env input condition ctx).
  destruct (truthy (taskId ctx)) as [tid|]; [destruct (adapter ctx) as [a|] |];
    cbn [store trace]; [fold (props_for env input condition ctx tid) in * | |];
    injection Hl as Hl <-; rewrite ?Hl; rewrite Hf; tidy.
Qed.

Lemma check_lookup_fails (options : ParsedOptions) (w : World Store)
    (e : error) (evs : list event) :
  signal ctx AtEntry = false ->
  lookup env input condition ctx w = (Err e, evs) ->
  check env input condition options ctx w =
    (Err e, after w ([EvGetTokenizer; EvGetModel] ++ evs)).
Proof.
  intros Hs Hl. unfold lookup in Hl. run. rewrite Hs. cbv beta iota.
  fold (prepared env input condition ctx).
  destruct (truthy (taskId ctx)) as [tid|]; [destruct (adapter ctx) as [a|] |];
    cbn [store trace]; [fold (props_for env input condition ctx tid) in * | |];
    try discriminate Hl.
  injection Hl as Hl <-. rewrite Hl. tidy.
Qed.

Lemma check_lookup_miss (options : ParsedOptions) (w : World Store)
    (exs : list Retrieved) (evs : list event) :
  signal ctx AtEntry = false ->
  lookup env input condition ctx w = (Ok exs, evs) ->
  find (is_exact_match env input condition ctx) exs = None ->
  check env input condition options ctx w =
    let req := request_for env input condition ctx exs options in
    let w1 := after w ([EvGetTokenizer; EvGetModel] ++ evs ++ [EvGenerate req]) in
    match generate env req with
    | Err e => (Err e, w1)
    | Ok (text, meta) =>
        match transform text with
        | Err e => (Err e, w1)
        | Ok x =>
            match truthy (taskId ctx), adapter ctx, signal ctx AfterGenerate with
            | Some tid, Some a, false =>
                let saved := saveExample a (store w) (record_for env input condition ctx tid x meta) in
                (match fst saved with
                 | Ok _ => Ok (verdict x)
                 | Err e => Err e
                 end,
                 {| store := snd saved;
                    trace := trace w1 ++ [EvSaveExample (record_for env input condition ctx tid x meta)] |})
            | _, _, _ => (Ok (verdict x), w1)
            end
        end
    end.
Proof.
  intros Hs Hl Hf. unfold lookup in Hl. run. rewrite Hs. cbv beta iota.
  fold (prepared env input condition ctx). fold (is_exact_match env input condition ctx).
  destruct (truthy (taskId ctx)) as [tid|]; [destruct (adapter ctx) as [a|] |];
    cbn [store trace]; [fold (props_for env input condition ctx tid) in * | |];
    injection Hl as Hl <-; rewrite ?Hl; rewrite Hf; cbn [store trace];
    fold (request_for env input condition ctx exs options);
    (destruct (generate env (request_for env input condition ctx exs options)) as [[text meta]|e];
     [destruct (transform text) as [x|e] |]); cbn [store trace]; try tidy.
  fold (record_for env input condition ctx tid x meta).
  destruct (signal ctx AfterGenerate); cbn [store trace]; try tidy.
  destruct (saveExample a (store w) (record_for env input condition ctx tid x meta)) as [[u|e] st'];
    cbn [fst snd]; tidy.
Qed.

End Runs.

Arguments check_aborted_at_entry {Store} env input condition ctx options w.
Arguments check_hit {Store} env input condition ctx options w tid a exs r.
Arguments check_lookup_hit {Store} env input condition ctx options w exs evs r.
Arguments check_lookup_fails {Store} env input condition ctx options w e evs.
Arguments check_lookup_miss {Store} env input condition ctx options w exs evs.

Lemma jsstring_eqb_eq (a b : jsstring) : jsstring_eqb a b = true <-> a = b.
Proof.
  unfold jsstring_eqb. destruct (list_eq_dec N.eq_dec a b); split;
    intros; try assumption; try reflexivity; try discriminate; contradiction.
Qed.

Lemma find_first_match {A : Type} (f : A -> bool) (l : list A) (x : A) :
  In x l -> f x = true -> exists y, find f l = Some y /\ In y l /\ f y = true.
Proof.
  intros Hin Hf. destruct (find f l) as [y|] eqn:E.
  - exists y. split; [reflexivity | exact (find_some f l E)].
  - pose proof (find_none f l E x Hin). congruence.
Qed.

(** ** The fingerprint cache *)

(** C1: with a [taskId] set, when the examples retrieved from the store
    contain a record whose key is the fingerprint of the task type, the
    task id and the truncated input and condition, [check] resolves to the
    stored outcome and explanation of the record with that key (the first
    one in retrieval order), makes no model call and no [saveExample] call
    and leaves the store as it was; a second call with the same input and
    condition then resolves to the same result, again without a model
    call. *)
Theorem cache_hit_replays_stored_record
    (Store : Type) (env : Env) (input : jsvalue) (condition : jsstring)
    (ctx : ZaiContext Store) (options : ParsedOptions) (w : World Store)
    (tid : jsstring) (a : Adapter Store) (exs : list Retrieved) (r : Retrieved) :
  signal ctx AtEntry = false ->
  truthy (taskId ctx) = Some tid ->
  adapter ctx = Some a ->
  getExamples a (store w) (props_for env input condition ctx tid) = Ok exs ->
  In r exs ->
  key r = fastHash env
            (JSON_stringify_key taskType (taskId ctx)
               (inputAsString (prepared env input condition ctx))
               (condition' (prepared env input condition ctx))) ->
  exists r0,
    find (is_exact_match env input condition ctx) exs = Some r0 /\
    In r0 exs /\ key r0 = key r /\
    ((forall r', In r' exs -> key r' = key r -> r' = r) -> r0 = r) /\
    let calls :=
      [EvGetTokenizer; EvGetModel;
       EvGetExamples (props_for env input condition ctx tid)] in
    let first := check env input condition options ctx w in
    first =
      (Ok {| value := r_output r0; explanation := nullish (r_explanation r0) [] |},
       after w calls) /\
    existsb is_model_call calls = false /\
    existsb is_save_call calls = false /\
    store (snd first) = store w /\
    forall (options' : ParsedOptions) (sig' : checkpoint -> bool),
      sig' AtEntry = false ->
      check env input condition options' (with_signal ctx sig') (snd first) =
        (fst first, after (snd first) calls).
Proof.
  intros Hs Ht Ha Hg Hin Hkey.
  destruct (find_first_match (is_exact_match env input condition ctx) exs r Hin)
    as (r0 & Hfind & Hin0 & Hk0).
  { apply jsstring_eqb_eq. exact Hkey. }
  apply jsstring_eqb_eq in Hk0.
  exists r0. split; [exact Hfind | split; [exact Hin0 | split; [| split]]].
  - rewrite Hk0, Hkey. reflexivity.
  - intros Huniq. apply Huniq; [exact Hin0 | now rewrite Hk0, Hkey].
  - cbv zeta.
    rewrite (check_hit env input condition ctx options w tid a exs r0 Hs Ht Ha Hg Hfind).
    split; [reflexivity | split; [reflexivity | split; [reflexivity | split]]];
      try reflexivity.
    intros options' sig' Hs'. cbn [fst snd].
    apply (check_hit env input condition (with_signal ctx sig') options' _ tid a exs r0);
      assumption.
Qed.

Lemma cache_hit_replays_stored_record_witness :
  fst (check Sample.env Sample.input Sample.condition Sample.options Sample.ctx warm) =
    Ok {| value := true; explanation := str "50 Cent is a rapper." |}.
Proof.
  assert (Hg : getExamples Sample.memory_adapter (store warm)
                 (props_for Sample.env Sample.input Sample.condition Sample.ctx
                    (str "celebrities")) = Ok [stored])
    by (vm_compute; reflexivity).
  destruct (cache_hit_replays_stored_record Sample.Store Sample.env Sample.input
              Sample.condition Sample.ctx Sample.options warm
              (str "celebrities") Sample.memory_adapter [stored] stored
              eq_refl eq_refl eq_refl Hg (or_introl eq_refl) eq_refl)
    as (r0 & Hfind & _ & _ & _ & Hrun & _).
  cbv zeta in Hrun. rewrite Hrun. cbn [fst].
  assert (E : r0 = stored) by (vm_compute in Hfind; now injection Hfind as <-).
  rewrite E. reflexivity.
Defined.

(** C10: the fingerprint is the hash of the serialized task type, task id,
    truncated input and truncated condition, whatever examples the caller
    passes; so on a cache hit two calls that differ only in
    [options.examples] resolve to the same stored answer and make the same
    calls. *)
Theorem cache_key_ignores_caller_examples
    (Store : Type) (env : Env) (input : jsvalue) (condition : jsstring)
    (ctx : ZaiContext Store) (options1 options2 : ParsedOptions) (w : World Store)
    (tid : jsstring) (a : Adapter Store) (exs : list Retrieved) (r : Retrieved) :
  let c := PROMPT_COMPONENT (maxTokens env) (PROMPT_INPUT_BUFFER env) in
  let fingerprint :=
    fastHash env
      (JSON_stringify_key taskType (taskId ctx)
         (truncate (tokenizer env) (stringify env input) (PROMPT_TOKENS_INPUT c))
         (truncate (tokenizer env) condition (PROMPT_TOKENS_CONDITION c))) in
  signal ctx AtEntry = false ->
  truthy (taskId ctx) = Some tid ->
  adapter ctx = Some a ->
  getExamples a (store w) (props_for env input condition ctx tid) = Ok exs ->
  find (fun x => jsstring_eqb (key x) fingerprint) exs = Some r ->
  check env input condition options1 ctx w =
    check env input condition options2 ctx w /\
  fst (check env input condition options1 ctx w) =
    Ok {| value := r_output r; explanation := nullish (r_explanation r) [] |}.
Proof.
  intros c fingerprint Hs Ht Ha Hg Hf.
  change (find (is_exact_match env input condition ctx) exs = Some r) in Hf.
  rewrite (check_hit env input condition ctx options1 w tid a exs r Hs Ht Ha Hg Hf).
  rewrite (check_hit env input condition ctx options2 w tid a exs r Hs Ht Ha Hg Hf).
  split; reflexivity.
Qed.

Lemma cache_key_ignores_caller_examples_witness :
  check Sample.env Sample.input Sample.condition
    {| opt_examples := [] |} Sample.ctx warm =
  check Sample.env Sample.input Sample.condition
    {| opt_examples := three_examples |} Sample.ctx warm.
Proof.
  assert (Hg : getExamples Sample.memory_adapter (store warm)
                 (props_for Sample.env Sample.input Sample.condition Sample.ctx
                    (str "celebrities")) = Ok [stored])
    by (vm_compute; reflexivity).
  apply (cache_key_ignores_caller_examples Sample.Store Sample.env Sample.input
           Sample.condition Sample.ctx
           {| opt_examples := [] |} {| opt_examples := three_examples |} warm
           (str "celebrities") Sample.memory_adapter [stored] stored
           eq_refl eq_refl eq_refl Hg).
  vm_compute. reflexivity.
Defined.

(** ** Persistence *)

(** C4, as stated, fails: the model answers, the answer parses to a verdict,
    the store rejects the write, and [check] rejects with the store's
    failure instead of resolving to the verdict. *)
Lemma save_failure_reaches_caller :
  generate Sample.env
    (request_for Sample.env Sample.input Sample.condition rejecting_ctx [] Sample.options)
    = Ok (Sample.answer, Sample.meta) /\
  transform Sample.answer =
    Ok {| finalAnswer := true; x_explanation := str "50 Cent is a rapper." |} /\
  fst (check Sample.env Sample.input Sample.condition Sample.options
         rejecting_ctx Sample.empty) =
    Err (StoreFailure (str "table unavailable")) /\
  fst (check Sample.env Sample.input Sample.condition Sample.options
         rejecting_ctx Sample.empty) <>
    Ok {| value := true; explanation := str "50 Cent is a rapper." |}.
Proof.
  split; [reflexivity | split; [vm_compute; reflexivity | split]].
  - vm_compute. reflexivity.
  - vm_compute. intros H. discriminate H.
Qed.

(** C4, amended: when a fresh verdict has been produced and the
    [saveExample] write that follows fails, [check] rejects with that
    failure; the write was attempted after the model call, and the verdict
    is not returned. *)
Theorem save_failure_is_passed_through
    (Store : Type) (env : Env) (input : jsvalue) (condition : jsstring)
    (ctx : ZaiContext Store) (options : ParsedOptions) (w : World Store)
    (tid : jsstring) (a : Adapter Store) (exs : list Retrieved)
    (text : jsstring) (meta : Meta) (x : Extracted) (e : error) (store' : Store) :
  signal ctx AtEntry = false ->
  truthy (taskId ctx) = Some tid ->
  adapter ctx = Some a ->
  getExamples a (store w) (props_for env input condition ctx tid) = Ok exs ->
  find (is_exact_match env input condition ctx) exs = None ->
  generate env (request_for env input condition ctx exs options) = Ok (text, meta) ->
  transform text = Ok x ->
  signal ctx AfterGenerate = false ->
  saveExample a (store w) (record_for env input condition ctx tid x meta)
    = (Err e, store') ->
  check env input condition options ctx w =
    (Err e,
     {| store := store';
        trace := trace w ++
          [EvGetTokenizer; EvGetModel;
           EvGetExamples (props_for env input condition ctx tid);
           EvGenerate (request_for env input condition ctx exs options);
           EvSaveExample (record_for env input condition ctx tid x meta)] |}).
Proof.
  intros Hs Ht Ha Hg Hf Hgen Htr Hs2 Hsave.
  rewrite (check_lookup_miss env input condition ctx options w exs
             [EvGetExamples (props_for env input condition ctx tid)] Hs);
    [| unfold lookup; now rewrite Ht, Ha, Hg | exact Hf].
  cbv zeta. rewrite Hgen, Htr, Ht, Ha, Hs2, Hsave. cbn [fst snd after trace store app].
  rewrite <- app_assoc. reflexivity.
Qed.

Lemma save_failure_is_passed_through_witness :
  fst (check Sample.env Sample.input Sample.condition Sample.options
         rejecting_ctx Sample.empty) =
    Err (StoreFailure (str "table unavailable")).
Proof.
  rewrite (save_failure_is_passed_through Sample.Store Sample.env Sample.input
             Sample.condition rejecting_ctx Sample.options Sample.empty
             (str "celebrities") Sample.failing_adapter []
             Sample.answer Sample.meta
             {| finalAnswer := true; x_explanation := str "50 Cent is a rapper." |}
             (StoreFailure (str "table unavailable")) []
             eq_refl eq_refl eq_refl eq_refl eq_refl eq_refl
             ltac:(vm_compute; reflexivity) eq_refl eq_refl).
  reflexivity.
Defined.

(** ** Cancellation *)

Lemma lookup_makes_no_write
    (Store : Type) (env : Env) (input : jsvalue) (condition : jsstring)
    (ctx : ZaiContext Store) (w : World Store)
    (r : result (list Retrieved)) (evs : list event) :
  lookup env input condition ctx w = (r, evs) ->
  existsb is_save_call evs = false /\ existsb is_model_call evs = false.
Proof.
  unfold lookup. intros H.
  destruct (truthy (taskId ctx)); [destruct (adapter ctx) |];
    injection H as _ <-; split; reflexivity.
Qed.

(** C8: the signal is read at two points.  Set on entry, [check] rejects
    with the cancellation at once and calls neither the tokenizer, nor the
    store, nor the model.  Set once the model call has returned a verdict,
    [check] still resolves to that verdict and skips the [saveExample]
    write, leaving the store as it was.  The signal at any other point does
    not change the run. *)
Theorem cancellation_checkpoints
    (Store : Type) (env : Env) (input : jsvalue) (condition : jsstring)
    (ctx : ZaiContext Store) (options : ParsedOptions) (w : World Store) :
  (signal ctx AtEntry = true ->
   check env input condition options ctx w = (Err Cancelled, w)) /\
  (forall exs evs text meta x,
     signal ctx AtEntry = false ->
     lookup env input condition ctx w = (Ok exs, evs) ->
     find (is_exact_match env input condition ctx) exs = None ->
     generate env (request_for env input condition ctx exs options) = Ok (text, meta) ->
     transform text = Ok x ->
     signal ctx AfterGenerate = true ->
     check env input condition options ctx w =
       (Ok {| value := finalAnswer x; explanation := trim (x_explanation x) |},
        after w ([EvGetTokenizer; EvGetModel] ++ evs ++
                 [EvGenerate (request_for env input condition ctx exs options)])) /\
     existsb is_save_call evs = false) /\
  (forall sig' : checkpoint -> bool,
     sig' AtEntry = signal ctx AtEntry ->
     sig' AfterGenerate = signal ctx AfterGenerate ->
     check env input condition options (with_signal ctx sig') w =
       check env input condition options ctx w).
Proof.
  split; [| split].
  - apply check_aborted_at_entry.
  - intros exs evs text meta x Hs Hl Hf Hgen Htr Hs2.
    split; [| exact (proj1 (lookup_makes_no_write _ _ _ _ _ _ _ _ Hl))].
    rewrite (check_lookup_miss env input condition ctx options w exs evs Hs Hl Hf).
    cbv zeta. rewrite Hgen, Htr, Hs2.
    destruct (truthy (taskId ctx)); [destruct (adapter ctx) |]; reflexivity.
  - intros sig' H1 H2.
    cbv beta iota zeta delta
      [check bind ret throw emit throwIfAborted getTokenizer getModel
       adapter_getExamples adapter_saveExample generateContent with_signal].
    cbn [taskId modelId adapter signal]. rewrite H1, H2. reflexivity.
Qed.

Lemma cancellation_checkpoints_witness :
  check Sample.env Sample.input Sample.condition Sample.options
    (with_signal Sample.ctx (fun _ => true)) Sample.empty = (Err Cancelled, Sample.empty) /\
  store (snd (check Sample.env Sample.input Sample.condition Sample.options
                (with_signal Sample.ctx aborted_late) Sample.empty)) = [] /\
  fst (check Sample.env Sample.input Sample.condition Sample.options
         (with_signal Sample.ctx aborted_late) Sample.empty) =
    Ok {| value := true; explanation := str "50 Cent is a rapper." |}.
Proof.
  split.
  - exact (proj1 (cancellation_checkpoints Sample.Store Sample.env Sample.input
                    Sample.condition (with_signal Sample.ctx (fun _ => true))
                    Sample.options Sample.empty) eq_refl).
  - destruct (cancellation_checkpoints Sample.Store Sample.env Sample.input
                Sample.condition (with_signal Sample.ctx aborted_late)
                Sample.options Sample.empty) as (_ & Hlate & _).
    destruct (Hlate [] [EvGetExamples
                          (props_for Sample.env Sample.input Sample.condition
                             Sample.ctx (str "celebrities"))]
                Sample.answer Sample.meta
                {| finalAnswer := true; x_explanation := str "50 Cent is a rapper." |}
                eq_refl eq_refl eq_refl eq_refl ltac:(vm_compute; reflexivity) eq_refl)
      as [Hrun _].
    rewrite Hrun. split; reflexivity.
Defined.

(** ** Calls without a task id *)

(** C9: without a [taskId] (absent, or the empty string) [check] retrieves
    nothing from the store, always reaches the model call, never calls
    [saveExample], and leaves the store as it was. *)
Theorem no_task_id_bypasses_store
    (Store : Type) (env : Env) (input : jsvalue) (condition : jsstring)
    (ctx : ZaiContext Store) (options : ParsedOptions) (w : World Store) :
  signal ctx AtEntry = false ->
  truthy (taskId ctx) = None ->
  let req := request_for env input condition ctx [] options in
  let calls := [EvGetTokenizer; EvGetModel; EvGenerate req] in
  check env input condition options ctx w =
    (match generate env req with
     | Ok (text, meta) =>
         match transform text with
         | Ok x => Ok {| value := finalAnswer x; explanation := trim (x_explanation x) |}
         | Err e => Err e
         end
     | Err e => Err e
     end,
     {| store := store w; trace := trace w ++ calls |}) /\
  existsb is_save_call calls = false /\
  existsb is_model_call calls = true.
Proof.
  intros Hs Ht. cbv zeta. split; [| split; reflexivity].
  rewrite (check_lookup_miss env input condition ctx options w [] [] Hs);
    [| unfold lookup; now rewrite Ht | reflexivity].
  cbv zeta. rewrite Ht.
  destruct (generate env (request_for env input condition ctx [] options))
    as [[text meta]|e]; [destruct (transform text) |]; reflexivity.
Qed.

Lemma no_task_id_bypasses_store_witness :
  snd (check Sample.env Sample.input Sample.condition Sample.options
         anonymous_ctx warm) =
    {| store := store warm;
       trace := trace warm ++
         [EvGetTokenizer; EvGetModel;
          EvGenerate (request_for Sample.env Sample.input Sample.condition
                        anonymous_ctx [] Sample.options)] |}.
Proof.
  destruct (no_task_id_bypasses_store Sample.Store Sample.env Sample.input
              Sample.condition anonymous_ctx Sample.options warm eq_refl eq_refl)
    as [Hrun _].
  rewrite Hrun. reflexivity.
Defined.

(** ** More facts about the string operations *)

Lemma trimStart_all_ws (l s : jsstring) :
  all_ws l = true -> trimStart (l ++ s) = trimStart s.
Proof.
  induction l as [|c l IH]; intros H; [reflexivity|].
  simpl in H. apply andb_true_iff in H as [Hc Hl].
  simpl. rewrite Hc. exact (IH Hl).
Qed.

Lemma trimStart_app (s t : jsstring) :
  trimStart (s ++ t) =
    match trimStart s with
    | [] => trimStart t
    | _ :: _ => trimStart s ++ t
    end.
Proof.
  induction s as [|c s IH]; simpl.
  - destruct (trimStart t); reflexivity.
  - destruct (is_ws c); [exact IH | reflexivity].
Qed.

Lemma trimStart_head (s : jsstring) :
  match trimStart s with
  | [] => True
  | c :: _ => is_ws c = false
  end.
Proof.
  induction s as [|c s IH]; simpl; [exact I|].
  destruct (is_ws c) eqn:E; [exact IH | exact E].
Qed.

Lemma trimStart_fixed (c : N) (s : jsstring) :
  is_ws c = false -> trimStart (c :: s) = c :: s.
Proof. intros H. simpl. now rewrite H. Qed.

Lemma trimEnd_all_ws (s l : jsstring) :
  all_ws l = true -> trimEnd (s ++ l) = trimEnd s.
Proof.
  intros H. unfold trimEnd. rewrite rev_app_distr, trimStart_all_ws; [reflexivity|].
  unfold all_ws in *. rewrite forallb_forall in *.
  intros x Hx. apply H. now apply in_rev.
Qed.

Lemma trimEnd_last (s : jsstring) (c : N) :
  is_ws c = false -> trimEnd (s ++ [c]) = s ++ [c].
Proof.
  intros H. unfold trimEnd. rewrite rev_app_distr.
  change (rev [c] ++ rev s) with (c :: rev s).
  rewrite (trimStart_fixed _ _ H). simpl. now rewrite rev_involutive.
Qed.

(** What [trim] leaves starts and ends with a character that is not
    white space. *)
Lemma trimEnd_keeps_head (c : N) (s : jsstring) :
  is_ws c = false -> exists s', trimEnd (c :: s) = c :: s'.
Proof.
  intros H. unfold trimEnd. simpl rev at 2.
  rewrite trimStart_app.
  destruct (trimStart (rev s)) as [|d u] eqn:E.
  - rewrite (trimStart_fixed _ _ H). now exists [].
  - rewrite rev_app_distr. simpl. eexists. reflexivity.
Qed.

Lemma trimEnd_rev_head (s : jsstring) :
  match rev (trimEnd s) with
  | [] => True
  | c :: _ => is_ws c = false
  end.
Proof. unfold trimEnd. rewrite rev_involutive. apply trimStart_head. Qed.

Lemma trim_fixed (s : jsstring) :
  trimStart s = s -> trimStart (rev s) = rev s -> trim s = s.
Proof.
  intros H1 H2. unfold trim, trimEnd. rewrite H1, H2. apply rev_involutive.
Qed.

Lemma trim_idempotent (s : jsstring) : trim (trim s) = trim s.
Proof.
  apply trim_fixed.
  - unfold trim. pose proof (trimStart_head s) as H.
    destruct (trimStart s) as [|c t]; [reflexivity|].
    destruct (trimEnd_keeps_head c t H) as [s' ->].
    now apply trimStart_fixed.
  - unfold trim. pose proof (trimEnd_rev_head (trimStart s)) as H.
    destruct (rev (trimEnd (trimStart s))) as [|c t]; [reflexivity|].
    now apply trimStart_fixed.
Qed.

(** White space around a text does not survive [trim]. *)
Lemma trim_padding (l s r : jsstring) :
  all_ws l = true -> all_ws r = true -> trim (l ++ s ++ r) = trim s.
Proof.
  intros Hl Hr. unfold trim. rewrite (trimStart_all_ws _ _ Hl), trimStart_app.
  destruct (trimStart s) as [|c t] eqn:E.
  - assert (Hr' : trimStart r = []).
    { rewrite <- (app_nil_r r), (trimStart_all_ws _ _ Hr). reflexivity. }
    now rewrite Hr'.
  - apply trimEnd_all_ws. exact Hr.
Qed.

(** A text that starts and ends with other characters is what [trim]
    leaves of it and any white space around it. *)
Lemma trim_exact (l r body : jsstring) (c z : N) :
  all_ws l = true -> all_ws r = true ->
  is_ws c = false -> is_ws z = false ->
  trim (l ++ (c :: body ++ [z]) ++ r) = c :: body ++ [z].
Proof.
  intros Hl Hr Hc Hz. rewrite (trim_padding _ _ _ Hl Hr).
  unfold trim. rewrite (trimStart_fixed _ _ Hc).
  change (c :: body ++ [z]) with ((c :: body) ++ [z]).
  now apply trimEnd_last.
Qed.

Lemma replace_cons (pat rep text : jsstring) (c : N) :
  startsWith pat (c :: text) = false ->
  replace pat rep (c :: text) = c :: replace pat rep text.
Proof. intros H. simpl. now rewrite H. Qed.

Lemma startsWith_head_ne (p c : N) (pat text : jsstring) :
  (c =? p)%N = false -> startsWith (p :: pat) (c :: text) = false.
Proof. intros H. simpl. rewrite N.eqb_sym, H. reflexivity. Qed.

(** No match starts in a prefix that lacks the first character of the
    pattern. *)
Lemma replace_skip (p : N) (pat rep a b : jsstring) :
  no_char p a = true ->
  replace (p :: pat) rep (a ++ b) = a ++ replace (p :: pat) rep b.
Proof.
  induction a as [|c a IH]; intros H; [reflexivity|].
  simpl in H. apply andb_true_iff in H as [Hc Ha].
  apply negb_true_iff in Hc.
  change ((c :: a) ++ b) with (c :: a ++ b).
  rewrite replace_cons by (now apply startsWith_head_ne).
  now rewrite (IH Ha).
Qed.

Lemma includes_skip (p : N) (pat a b : jsstring) :
  no_char p a = true ->
  includes (p :: pat) (a ++ b) = includes (p :: pat) b.
Proof.
  induction a as [|c a IH]; intros H; [reflexivity|].
  simpl in H. apply andb_true_iff in H as [Hc Ha].
  apply negb_true_iff in Hc.
  change ((c :: a) ++ b) with (c :: a ++ b).
  rewrite includes_cons, (startsWith_head_ne _ _ _ _ Hc). exact (IH Ha).
Qed.

(** A match that starts in [s] and is followed by a character foreign to
    the pattern lies within [s]. *)
Lemma startsWith_before_foreign (pat s tail : jsstring) (d : N) :
  no_char d pat = true ->
  startsWith pat (s ++ d :: tail) = true -> startsWith pat s = true.
Proof.
  revert s. induction pat as [|p pat IH]; intros s Hd H; [reflexivity|].
  simpl in Hd. apply andb_true_iff in Hd as [Hp Hpat].
  apply negb_true_iff in Hp.
  destruct s as [|c s]; simpl in H |- *.
  - rewrite Hp in H. discriminate H.
  - apply andb_true_iff in H as [H1 H2]. rewrite H1. exact (IH s Hpat H2).
Qed.

Lemma includes_false_cons (pat text : jsstring) (c : N) :
  includes pat (c :: text) = false ->
  startsWith pat (c :: text) = false /\ includes pat text = false.
Proof. rewrite includes_cons. apply orb_false_iff. Qed.

Lemma replace_through (pat rep J tail : jsstring) (d : N) :
  no_char d pat = true -> includes pat J = false ->
  replace pat rep (J ++ d :: tail) = J ++ replace pat rep (d :: tail).
Proof.
  intros Hd. induction J as [|c J IH]; intros H; [reflexivity|].
  apply includes_false_cons in H as [Hs Hi].
  change ((c :: J) ++ d :: tail) with (c :: J ++ d :: tail).
  rewrite replace_cons.
  - now rewrite (IH Hi).
  - destruct (startsWith pat (c :: J ++ d :: tail)) eqn:E; [|reflexivity].
    apply (startsWith_before_foreign pat (c :: J) tail d Hd) in E. congruence.
Qed.

Lemma includes_through (pat J tail : jsstring) (d : N) :
  no_char d pat = true -> includes pat J = false ->
  includes pat (J ++ d :: tail) = includes pat (d :: tail).
Proof.
  intros Hd. induction J as [|c J IH]; intros H; [reflexivity|].
  apply includes_false_cons in H as [Hs Hi].
  change ((c :: J) ++ d :: tail) with (c :: J ++ d :: tail).
  rewrite includes_cons, (IH Hi).
  destruct (startsWith pat (c :: J ++ d :: tail)) eqn:E; [|reflexivity].
  apply (startsWith_before_foreign pat (c :: J) tail d Hd) in E. congruence.
Qed.

(** ** The format of an example answer *)

Lemma trim_template (a J X : jsstring) (c z : N) :
  is_ws c = false -> is_ws z = false ->
  trim (nl ++ (c :: a) ++ J ++ X ++ [z] ++ nl) = (c :: a) ++ J ++ X ++ [z].
Proof.
  intros Hc Hz.
  assert (E : (c :: a) ++ J ++ X ++ [z] = c :: (a ++ J ++ X) ++ [z])
    by (cbn [app]; now rewrite <- !app_assoc).
  replace (nl ++ (c :: a) ++ J ++ X ++ [z] ++ nl)
    with (nl ++ (c :: (a ++ J ++ X) ++ [z]) ++ nl).
  - rewrite E. apply trim_exact; assumption || reflexivity.
  - rewrite <- E, <- !app_assoc. reflexivity.
Qed.

Lemma formatOutput_eq (answer : bool) (justification : jsstring) :
  formatOutput answer justification =
    str "Analysis: " ++ justification ++
    nl ++ str "Final Answer: " ++ (if answer then TRUE else FALSE) ++ nl ++ END.
Proof.
  unfold formatOutput. destruct answer.
  - exact (trim_template (str "nalysis: ") justification
             (nl ++ str "Final Answer: " ++ TRUE ++ nl ++ [9632; 69; 78; 68]%N)
             65 9632 eq_refl eq_refl).
  - exact (trim_template (str "nalysis: ") justification
             (nl ++ str "Final Answer: " ++ FALSE ++ nl ++ [9632; 69; 78; 68]%N)
             65 9632 eq_refl eq_refl).
Qed.

Lemma replace_framed (d : N) (pat rep a J tail : jsstring) :
  head_absent pat a = true -> no_char d pat = true ->
  includes pat J = false ->
  replace pat rep (a ++ J ++ d :: tail) = a ++ J ++ replace pat rep (d :: tail).
Proof.
  intros Ha Hd HJ. destruct pat as [|p pat]; [discriminate Ha|].
  rewrite (replace_skip _ _ _ _ _ Ha).
  now rewrite (replace_through _ _ _ _ _ Hd HJ).
Qed.

Lemma includes_framed (d : N) (pat a J tail : jsstring) :
  head_absent pat a = true -> no_char d pat = true ->
  includes pat J = false ->
  includes pat (a ++ J ++ d :: tail) = includes pat (d :: tail).
Proof.
  intros Ha Hd HJ. destruct pat as [|p pat]; [discriminate Ha|].
  rewrite (includes_skip _ _ _ _ Ha).
  exact (includes_through _ _ _ _ Hd HJ).
Qed.

(** X1: the answer format of the few-shot examples parses back: for a
    justification that contains no marker and no "Final Answer:" label,
    [transform] of [formatOutput answer justification] yields [answer] and
    the trimmed justification. *)
Theorem transform_formatOutput_roundtrip (answer : bool) (justification : jsstring) :
  includes TRUE justification = false ->
  includes FALSE justification = false ->
  includes END justification = false ->
  includes (str "Final Answer:") justification = false ->
  transform (formatOutput answer justification) =
    Ok {| finalAnswer := answer; x_explanation := trim justification |}.
Proof.
  intros HT HF HE HL. rewrite formatOutput_eq.
  set (A := str "Analysis: ").
  assert (Hexp :
    trim (replace (str "Analysis:") []
         (replace (str "Final Answer:") []
         (replace END []
         (replace FALSE []
         (replace TRUE []
            (A ++ justification ++ nl ++ str "Final Answer: " ++
             (if answer then TRUE else FALSE) ++ nl ++ END))))))
    = trim justification).
  { destruct answer;
      rewrite (replace_framed 10 TRUE [] A justification _ eq_refl eq_refl HT
               : replace TRUE [] (A ++ justification ++ nl ++ _) = _);
      rewrite (replace_framed 10 FALSE [] A justification _ eq_refl eq_refl HF
               : replace FALSE [] (A ++ justification ++
                    replace TRUE [] (10%N :: _)) = _);
      rewrite (replace_framed 10 END [] A justification _ eq_refl eq_refl HE
               : replace END [] (A ++ justification ++
                    replace FALSE [] (10%N :: _)) = _);
      rewrite (replace_framed 10 (str "Final Answer:") [] A justification _
                 eq_refl eq_refl HL
               : replace (str "Final Answer:") [] (A ++ justification ++
                    replace END [] (10%N :: _)) = _);
      exact (trim_padding [32%N] justification [10; 32; 10]%N eq_refl eq_refl). }
  assert (Hinc :
    includes TRUE (A ++ justification ++ nl ++ str "Final Answer: " ++
                   (if answer then TRUE else FALSE) ++ nl ++ END) = answer /\
    includes FALSE (A ++ justification ++ nl ++ str "Final Answer: " ++
                    (if answer then TRUE else FALSE) ++ nl ++ END) = negb answer).
  { destruct answer; split.
    - exact (includes_framed 10 TRUE A justification _ eq_refl eq_refl HT).
    - exact (includes_framed 10 FALSE A justification _ eq_refl eq_refl HF).
    - exact (includes_framed 10 TRUE A justification _ eq_refl eq_refl HT).
    - exact (includes_framed 10 FALSE A justification _ eq_refl eq_refl HF). }
  destruct Hinc as [H1 H2].
  rewrite transform_present by (rewrite H1, H2; now destruct answer).
  rewrite Hexp, trim_idempotent, H1, H2.
  now destruct answer.
Qed.

Lemma transform_formatOutput_roundtrip_witness :
  transform (formatOutput false (str " The list contains a house. ")) =
    Ok {| finalAnswer := false; x_explanation := str "The list contains a house." |}.
Proof.
  exact (transform_formatOutput_roundtrip false (str " The list contains a house. ")
           eq_refl eq_refl eq_refl eq_refl).
Defined.

(** X2: a response that contains exactly one of the two markers is parsed
    to that marker's verdict. *)
Theorem transform_single_marker (text : jsstring) :
  (occurs TRUE text -> ~ occurs FALSE text ->
   exists e, transform text = Ok e /\ finalAnswer e = true) /\
  (occurs FALSE text -> ~ occurs TRUE text ->
   exists e, transform text = Ok e /\ finalAnswer e = false).
Proof.
  split; intros Hyes Hno; apply includes_iff in Hyes;
    (eexists; split;
     [apply transform_present; rewrite Hyes; now rewrite ?orb_true_r |]);
    cbn [finalAnswer]; rewrite Hyes.
  - destruct (includes FALSE text) eqn:E; [|reflexivity].
    apply includes_iff in E. contradiction.
  - destruct (includes TRUE text) eqn:E; [|reflexivity].
    apply includes_iff in E. contradiction.
Qed.

Lemma transform_single_marker_witness :
  exists e, transform (str "Sure: " ++ FALSE) = Ok e /\ finalAnswer e = false.
Proof.
  apply (transform_single_marker (str "Sure: " ++ FALSE)).
  - exists (str "Sure: "), []. reflexivity.
  - intros H. apply includes_iff in H. vm_compute in H. discriminate H.
Defined.

Lemma not_occurs_includes (pat text : jsstring) :
  ~ occurs pat text -> includes pat text = false.
Proof.
  intros H. destruct (includes pat text) eqn:E; [|reflexivity].
  apply includes_iff in E. contradiction.
Qed.

(** What [transform] returns as explanation is already trimmed. *)
Lemma transform_explanation_trimmed (text : jsstring) (x : Extracted) :
  transform text = Ok x -> trim (x_explanation x) = x_explanation x.
Proof.
  unfold transform. destruct (negb (includes TRUE text) && negb (includes FALSE text));
    [discriminate|].
  intros H. injection H as <-. cbn [x_explanation].
  now rewrite !trim_idempotent.
Qed.

(** ** More runs of [check] *)

Lemma lookup_events
    (Store : Type) (env : Env) (input : jsvalue) (condition : jsstring)
    (ctx : ZaiContext Store) (w : World Store)
    (r : result (list Retrieved)) (evs : list event) :
  lookup env input condition ctx w = (r, evs) ->
  evs = [] \/ exists props, evs = [EvGetExamples props].
Proof.
  unfold lookup. intros H.
  destruct (truthy (taskId ctx)); [destruct (adapter ctx) |];
    injection H as _ <-; [right; eexists; reflexivity | now left | now left].
Qed.

(** X3: when reading the store fails, [check] rejects with that failure
    before any model call; nothing is written. *)
Theorem store_read_failure_propagates
    (Store : Type) (env : Env) (input : jsvalue) (condition : jsstring)
    (ctx : ZaiContext Store) (options : ParsedOptions) (w : World Store)
    (tid : jsstring) (a : Adapter Store) (e : error) :
  signal ctx AtEntry = false ->
  truthy (taskId ctx) = Some tid ->
  adapter ctx = Some a ->
  getExamples a (store w) (props_for env input condition ctx tid) = Err e ->
  check env input condition options ctx w =
    (Err e,
     after w [EvGetTokenizer; EvGetModel;
              EvGetExamples (props_for env input condition ctx tid)]).
Proof.
  intros Hs Ht Ha Hg.
  apply (check_lookup_fails env input condition ctx options w e
           [EvGetExamples (props_for env input condition ctx tid)] Hs).
  unfold lookup. now rewrite Ht, Ha, Hg.
Qed.

Lemma store_read_failure_propagates_witness :
  fst (check Sample.env Sample.input Sample.condition Sample.options
         unreadable_ctx Sample.empty) =
    Err (StoreFailure (str "table unavailable")).
Proof.
  rewrite (store_read_failure_propagates Sample.Store Sample.env Sample.input
             Sample.condition unreadable_ctx Sample.options Sample.empty
             (str "celebrities")
             unreadable_adapter (StoreFailure (str "table unavailable"))
             eq_refl eq_refl eq_refl eq_refl).
  reflexivity.
Defined.

(** X4: when the model call fails, or its response has no marker, [check]
    rejects with that failure; no [saveExample] call is made and the store
    is as it was. *)
Theorem failed_completion_saves_nothing
    (Store : Type) (env : Env) (input : jsvalue) (condition : jsstring)
    (ctx : ZaiContext Store) (options : ParsedOptions) (w : World Store)
    (exs : list Retrieved) (evs : list event) :
  signal ctx AtEntry = false ->
  lookup env input condition ctx w = (Ok exs, evs) ->
  find (is_exact_match env input condition ctx) exs = None ->
  let req := request_for env input condition ctx exs options in
  let w1 := after w ([EvGetTokenizer; EvGetModel] ++ evs ++ [EvGenerate req]) in
  (forall e, generate env req = Err e ->
     check env input condition options ctx w = (Err e, w1)) /\
  (forall text meta,
     generate env req = Ok (text, meta) ->
     ~ occurs TRUE text -> ~ occurs FALSE text ->
     check env input condition options ctx w =
       (Err (MalformedVerdict (malformed_message text)), w1)) /\
  existsb is_save_call ([EvGetTokenizer; EvGetModel] ++ evs ++ [EvGenerate req]) = false.
Proof.
  intros Hs Hl Hf req w1.
  pose proof (check_lookup_miss env input condition ctx options w exs evs Hs Hl Hf)
    as Hrun. cbv zeta in Hrun. fold req in Hrun. fold w1 in Hrun.
  split; [| split].
  - intros e He. now rewrite Hrun, He.
  - intros text meta Hg HT HF. rewrite Hrun, Hg.
    now rewrite (transform_absent text (not_occurs_includes _ _ HT)
                   (not_occurs_includes _ _ HF)).
  - destruct (lookup_events _ _ _ _ _ _ _ _ Hl) as [-> | [props ->]]; reflexivity.
Qed.

Lemma failed_completion_saves_nothing_witness :
  fst (check undecided_env Sample.input Sample.condition Sample.options
         Sample.ctx Sample.empty) =
    Err (MalformedVerdict (malformed_message (str "I cannot tell."))) /\
  store (snd (check undecided_env Sample.input Sample.condition Sample.options
                Sample.ctx Sample.empty)) = [].
Proof.
  destruct (failed_completion_saves_nothing Sample.Store undecided_env Sample.input
              Sample.condition Sample.ctx Sample.options Sample.empty []
              [EvGetExamples (props_for undecided_env Sample.input Sample.condition
                                Sample.ctx (str "celebrities"))]
              eq_refl eq_refl eq_refl) as (_ & Hmal & _).
  rewrite (Hmal (str "I cannot tell.") Sample.meta eq_refl).
  - split; reflexivity.
  - intros H. apply includes_iff in H. vm_compute in H. discriminate H.
  - intros H. apply includes_iff in H. vm_compute in H. discriminate H.
Defined.

(** X5: without an adapter, whatever the task id, [check] reads nothing
    from a store and writes nothing to it: its calls are the tokenizer, the
    model description and the completion. *)
Theorem no_adapter_bypasses_store
    (Store : Type) (env : Env) (input : jsvalue) (condition : jsstring)
    (ctx : ZaiContext Store) (options : ParsedOptions) (w : World Store) :
  signal ctx AtEntry = false ->
  adapter ctx = None ->
  let req := request_for env input condition ctx [] options in
  check env input condition options ctx w =
    (match generate env req with
     | Ok (text, meta) =>
         match transform text with
         | Ok x => Ok {| value := finalAnswer x; explanation := trim (x_explanation x) |}
         | Err e => Err e
         end
     | Err e => Err e
     end,
     after w [EvGetTokenizer; EvGetModel; EvGenerate req]).
Proof.
  intros Hs Ha. cbv zeta.
  rewrite (check_lookup_miss env input condition ctx options w [] [] Hs);
    [| unfold lookup; rewrite Ha; now destruct (truthy (taskId ctx)) | reflexivity].
  cbv zeta. rewrite Ha.
  destruct (generate env (request_for env input condition ctx [] options))
    as [[text meta]|e]; [destruct (transform text) |];
    destruct (truthy (taskId ctx)); reflexivity.
Qed.

Lemma no_adapter_bypasses_store_witness :
  snd (check Sample.env Sample.input Sample.condition Sample.options
         detached_ctx warm) =
    after warm
      [EvGetTokenizer; EvGetModel;
       EvGenerate (request_for Sample.env Sample.input Sample.condition
                     detached_ctx [] Sample.options)].
Proof.
  rewrite (no_adapter_bypasses_store Sample.Store Sample.env Sample.input
             Sample.condition detached_ctx Sample.options warm eq_refl eq_refl).
  reflexivity.
Defined.



Lemma check_saved_run
    (Store : Type) (env : Env) (input : jsvalue) (condition : jsstring)
    (ctx : ZaiContext Store) (options : ParsedOptions) (w : World Store)
    (tid : jsstring) (a : Adapter Store) (exs : list Retrieved)
    (text : jsstring) (meta : Meta) (x : Extracted) (store' : Store) :
  signal ctx AtEntry = false ->
  truthy (taskId ctx) = Some tid ->
  adapter ctx = Some a ->
  getExamples a (store w) (props_for env input condition ctx tid) = Ok exs ->
  find (is_exact_match env input condition ctx) exs = None ->
  generate env (request_for env input condition ctx exs options) = Ok (text, meta) ->
  transform text = Ok x ->
  signal ctx AfterGenerate = false ->
  saveExample a (store w) (record_for env input condition ctx tid x meta)
    = (Ok tt, store') ->
  check env input condition options ctx w =
    (Ok {| value := finalAnswer x; explanation := x_explanation x |},
     {| store := store';
        trace := trace w ++
          [EvGetTokenizer; EvGetModel;
           EvGetExamples (props_for env input condition ctx tid);
           EvGenerate (request_for env input condition ctx exs options);
           EvSaveExample (record_for env input condition ctx tid x meta)] |}).
Proof.
  intros Hs Ht Ha Hg Hf Hgen Htr Hs2 Hsave.
  rewrite (check_lookup_miss env input condition ctx options w exs
             [EvGetExamples (props_for env input condition ctx tid)] Hs);
    [| unfold lookup; now rewrite Ht, Ha, Hg | exact Hf].
  cbv zeta. rewrite Hgen, Htr, Ht, Ha, Hs2, Hsave.
  cbn [fst snd after trace store app]. rewrite <- app_assoc.
  unfold verdict. rewrite (transform_explanation_trimmed text x Htr). reflexivity.
Qed.

(** X7: on a fresh verdict that is saved, the record handed to
    [saveExample] carries the fingerprint, the truncated input and
    condition, and exactly the value and explanation that [check] resolves
    to. *)
Theorem fresh_verdict_saved_as_returned
    (Store : Type) (env : Env) (input : jsvalue) (condition : jsstring)
    (ctx : ZaiContext Store) (options : ParsedOptions) (w : World Store)
    (tid : jsstring) (a : Adapter Store) (exs : list Retrieved)
    (text : jsstring) (meta : Meta) (x : Extracted) (store' : Store) :
  signal ctx AtEntry = false ->
  truthy (taskId ctx) = Some tid ->
  adapter ctx = Some a ->
  getExamples a (store w) (props_for env input condition ctx tid) = Ok exs ->
  find (is_exact_match env input condition ctx) exs = None ->
  generate env (request_for env input condition ctx exs options) = Ok (text, meta) ->
  transform text = Ok x ->
  signal ctx AfterGenerate = false ->
  saveExample a (store w) (record_for env input condition ctx tid x meta)
    = (Ok tt, store') ->
  exists rec,
    check env input condition options ctx w =
      (Ok {| value := s_output rec; explanation := s_explanation rec |},
       {| store := store';
          trace := trace w ++
            [EvGetTokenizer; EvGetModel;
             EvGetExamples (props_for env input condition ctx tid);
             EvGenerate (request_for env input condition ctx exs options);
             EvSaveExample rec] |}) /\
    s_key rec = Key (prepared env input condition ctx) /\
    s_taskType rec = taskType /\
    s_taskId rec = tid /\
    s_input rec =
      truncate (tokenizer env) (stringify env input)
        (PROMPT_TOKENS_INPUT (component (prepared env input condition ctx))) /\
    s_instructions rec =
      truncate (tokenizer env) condition
        (PROMPT_TOKENS_CONDITION (component (prepared env input condition ctx))).
Proof.
  intros Hs Ht Ha Hg Hf Hgen Htr Hs2 Hsave.
  exists (record_for env input condition ctx tid x meta).
  split; [| repeat split].
  exact (check_saved_run Store env input condition ctx options w tid a exs
           text meta x store' Hs Ht Ha Hg Hf Hgen Htr Hs2 Hsave).
Qed.

Lemma fresh_verdict_saved_as_returned_witness :
  exists rec,
    fst (check Sample.env Sample.input Sample.condition Sample.options
           Sample.ctx Sample.empty) =
      Ok {| value := s_output rec; explanation := s_explanation rec |} /\
    s_key rec = Key (prepared Sample.env Sample.input Sample.condition Sample.ctx).
Proof.
  destruct (fresh_verdict_saved_as_returned Sample.Store Sample.env Sample.input
              Sample.condition Sample.ctx Sample.options Sample.empty
              (str "celebrities") Sample.memory_adapter [] Sample.answer Sample.meta
              {| finalAnswer := true; x_explanation := str "50 Cent is a rapper." |}
              [record_for Sample.env Sample.input Sample.condition Sample.ctx
                 (str "celebrities")
                 {| finalAnswer := true; x_explanation := str "50 Cent is a rapper." |}
                 Sample.meta]
              eq_refl eq_refl eq_refl eq_refl eq_refl eq_refl
              ltac:(vm_compute; reflexivity) eq_refl eq_refl)
    as (rec & Hrun & Hkey & _).
  exists rec. rewrite Hrun. split; [reflexivity | exact Hkey].
Defined.

(** X8: a saved verdict is replayed.  After a fresh verdict has been saved,
    if the store returns for the same task a list whose first record with
    the fingerprint holds the saved value and explanation, the next call
    with the same input and condition resolves to the same result as the
    first and makes no model call and no [saveExample] call. *)
Theorem saved_verdict_is_replayed
    (Store : Type) (env : Env) (input : jsvalue) (condition : jsstring)
    (ctx : ZaiContext Store) (options options' : ParsedOptions) (w : World Store)
    (tid : jsstring) (a : Adapter Store) (exs exs' : list Retrieved)
    (text : jsstring) (meta : Meta) (x : Extracted) (store' : Store)
    (r : Retrieved) (sig' : checkpoint -> bool) :
  signal ctx AtEntry = false ->
  truthy (taskId ctx) = Some tid ->
  adapter ctx = Some a ->
  getExamples a (store w) (props_for env input condition ctx tid) = Ok exs ->
  find (is_exact_match env input condition ctx) exs = None ->
  generate env (request_for env input condition ctx exs options) = Ok (text, meta) ->
  transform text = Ok x ->
  signal ctx AfterGenerate = false ->
  saveExample a (store w) (record_for env input condition ctx tid x meta)
    = (Ok tt, store') ->
  sig' AtEntry = false ->
  getExamples a store' (props_for env input condition ctx tid) = Ok exs' ->
  find (is_exact_match env input condition ctx) exs' = Some r ->
  r_output r = finalAnswer x ->
  r_explanation r = Some (x_explanation x) ->
  let first := check env input condition options ctx w in
  let second :=
    check env input condition options' (with_signal ctx sig') (snd first) in
  fst second = fst first /\
  snd second =
    after (snd first)
      [EvGetTokenizer; EvGetModel;
       EvGetExamples (props_for env input condition ctx tid)].
Proof.
  intros Hs Ht Ha Hg Hf Hgen Htr Hs2 Hsave Hs' Hg' Hf' Hout Hexp. cbv zeta.
  rewrite (check_saved_run Store env input condition ctx options w tid a exs
             text meta x store' Hs Ht Ha Hg Hf Hgen Htr Hs2 Hsave).
  cbn [fst snd].
  set (w1 := {| store := store'; trace := _ |}).
  rewrite (check_hit env input condition (with_signal ctx sig') options' w1 tid a
             exs' r Hs' Ht Ha Hg' Hf').
  cbn [fst snd]. rewrite Hout, Hexp. split; reflexivity.
Qed.

Lemma saved_verdict_is_replayed_witness :
  fst (check Sample.env Sample.input Sample.condition
         {| opt_examples := three_examples |} Sample.ctx warm) =
  fst (check Sample.env Sample.input Sample.condition Sample.options
         Sample.ctx Sample.empty).
Proof.
  assert (Hg : getExamples Sample.memory_adapter (store warm)
                 (props_for Sample.env Sample.input Sample.condition Sample.ctx
                    (str "celebrities")) = Ok [stored])
    by (vm_compute; reflexivity).
  exact (proj1 (saved_verdict_is_replayed Sample.Store Sample.env Sample.input
           Sample.condition Sample.ctx Sample.options
           {| opt_examples := three_examples |} Sample.empty
           (str "celebrities") Sample.memory_adapter [] [stored]
           Sample.answer Sample.meta
           {| finalAnswer := true; x_explanation := str "50 Cent is a rapper." |}
           (store warm) stored Sample.never
           eq_refl eq_refl eq_refl eq_refl eq_refl eq_refl
           ltac:(vm_compute; reflexivity) eq_refl
           ltac:(vm_compute; reflexivity) eq_refl Hg
           ltac:(vm_compute; reflexivity) eq_refl eq_refl)).
Defined.

(** X9: [check] depends on the input and the condition only through their
    truncations: two calls whose serialized inputs truncate to the same
    text and whose conditions truncate to the same text run identically,
    cache lookups included. *)
Theorem check_depends_on_truncations
    (Store : Type) (env : Env) (input1 input2 : jsvalue)
    (condition1 condition2 : jsstring)
    (ctx : ZaiContext Store) (options : ParsedOptions) (w : World Store) :
  let c := PROMPT_COMPONENT (maxTokens env) (PROMPT_INPUT_BUFFER env) in
  truncate (tokenizer env) (stringify env input1) (PROMPT_TOKENS_INPUT c) =
  truncate (tokenizer env) (stringify env input2) (PROMPT_TOKENS_INPUT c) ->
  truncate (tokenizer env) condition1 (PROMPT_TOKENS_CONDITION c) =
  truncate (tokenizer env) condition2 (PROMPT_TOKENS_CONDITION c) ->
  check env input1 condition1 options ctx w =
  check env input2 condition2 options ctx w.
Proof.
  intros c Hi Hc.
  assert (E : prepare env (tokenizer env) (maxTokens env) (taskId ctx)
                input1 condition1 =
              prepare env (tokenizer env) (maxTokens env) (taskId ctx)
                input2 condition2).
  { unfold prepare. fold c. now rewrite Hi, Hc. }
  cbv beta iota zeta delta
    [check bind ret throw emit throwIfAborted getTokenizer getModel
     adapter_getExamples adapter_saveExample generateContent].
  now rewrite E.
Qed.

Lemma check_depends_on_truncations_witness :
  check narrow_env (VString (fifty ++ str "left")) Sample.condition
    Sample.options Sample.ctx Sample.empty =
  check narrow_env (VString (fifty ++ str "right")) Sample.condition
    Sample.options Sample.ctx Sample.empty.
Proof.
  apply (check_depends_on_truncations Sample.Store narrow_env
           (VString (fifty ++ str "left")) (VString (fifty ++ str "right"))
           Sample.condition Sample.condition Sample.ctx Sample.options Sample.empty);
    reflexivity.
Defined.

(** ** The request *)

Lemma trim_frame (l r a J X : jsstring) (c z : N) :
  all_ws l = true -> all_ws r = true ->
  is_ws c = false -> is_ws z = false ->
  trim (l ++ (c :: a) ++ J ++ X ++ [z] ++ r) = (c :: a) ++ J ++ X ++ [z].
Proof.
  intros Hl Hr Hc Hz.
  assert (E : (c :: a) ++ J ++ X ++ [z] = c :: (a ++ J ++ X) ++ [z])
    by (cbn [app]; now rewrite <- !app_assoc).
  replace (l ++ (c :: a) ++ J ++ X ++ [z] ++ r)
    with (l ++ (c :: (a ++ J ++ X) ++ [z]) ++ r).
  - rewrite E. apply trim_exact; assumption.
  - rewrite <- E, <- !app_assoc. reflexivity.
Qed.

Lemma trim_frame2 (l r a J1 M J2 X : jsstring) (c z : N) :
  all_ws l = true -> all_ws r = true ->
  is_ws c = false -> is_ws z = false ->
  trim (l ++ (c :: a) ++ J1 ++ M ++ J2 ++ X ++ [z] ++ r) =
    (c :: a) ++ J1 ++ M ++ J2 ++ X ++ [z].
Proof.
  intros Hl Hr Hc Hz.
  pose proof (trim_frame l r a (J1 ++ M ++ J2) X c z Hl Hr Hc Hz) as H.
  rewrite <- !app_assoc in H. exact H.
Qed.

(** The text of a [formatInput] block once the template is trimmed. *)
Lemma formatInput_eq (hasUserExamples : bool) (exampleId : Z)
    (input condition : jsstring) :
  fst (formatInput hasUserExamples exampleId input condition) =
    (if hasUserExamples
     then str "Expert Example #" ++ number_toString exampleId
     else str "Example of condition: " ++ dq ++ condition ++ dq) ++
    nl ++ str "<|start_input|>" ++ nl ++ trim input ++ nl ++ str "<|end_input|>".
Proof.
  unfold formatInput. cbn [fst]. destruct hasUserExamples.
  - rewrite <- !app_assoc.
    exact (trim_frame2 nl nl (str "xpert Example #") (number_toString exampleId)
             (nl ++ str "<|start_input|>" ++ nl) (trim input)
             (nl ++ str "<|end_input|") 69 62 eq_refl eq_refl eq_refl eq_refl).
  - rewrite <- !app_assoc.
    exact (trim_frame2 nl nl (str "xample of condition: " ++ dq) condition
             (dq ++ nl ++ str "<|start_input|>" ++ nl) (trim input)
             (nl ++ str "<|end_input|") 69 62 eq_refl eq_refl eq_refl eq_refl).
Qed.

Lemma formatInput_counter (hasUserExamples : bool) (exampleId : Z)
    (input condition : jsstring) :
  snd (formatInput hasUserExamples exampleId input condition) =
    if hasUserExamples then exampleId + 1 else exampleId.
Proof. reflexivity. Qed.

Lemma formatExamples_counter (env : Env) (hasUserExamples : bool)
    (condition : jsstring) (l : list Example) :
  forall exampleId,
    snd (formatExamples env hasUserExamples condition exampleId l) =
      (if hasUserExamples then exampleId + Z.of_nat (length l) else exampleId) /\
    map msg_role (fst (formatExamples env hasUserExamples condition exampleId l)) =
      flat_map (fun _ => [user; assistant]) l.
Proof.
  induction l as [|example rest IH]; intros exampleId.
  - simpl. split; [destruct hasUserExamples; lia | reflexivity].
  - cbn [formatExamples]. unfold formatExample.
    destruct (formatInput hasUserExamples exampleId
                (stringify env (input_or_null (ex_input example)))
                (nullish (ex_condition example) condition))
      as [text exampleId'] eqn:E.
    assert (E' : exampleId' = if hasUserExamples then exampleId + 1 else exampleId).
    { change exampleId' with (snd (text, exampleId')). rewrite <- E. reflexivity. }
    destruct (IH exampleId') as [IH1 IH2].
    destruct (formatExamples env hasUserExamples condition exampleId' rest)
      as [msgs' exampleId''].
    cbn [fst snd] in *. split.
    + rewrite IH1, E'. destruct hasUserExamples; [|reflexivity].
      cbn [length]. lia.
    + cbn [app map flat_map msg_role]. now rewrite IH2.
Qed.

Lemma make_systemPrompt_eq (hasUserExamples : bool) (exampleId : Z) :
  make_systemPrompt hasUserExamples exampleId =
    systemPrompt_preamble ++ number_toString (exampleId - 1) ++ str "):" ++
    (if hasUserExamples then nl ++ specialInstructions true else []).
Proof.
  unfold make_systemPrompt. destruct hasUserExamples.
  - exact (trim_frame nl nl (tl systemPrompt_preamble)
             (number_toString (exampleId - 1))
             (removelast (str "):" ++ nl ++ specialInstructions true))
             67 46 eq_refl eq_refl eq_refl eq_refl).
  - exact (trim_frame nl [10; 10]%N (tl systemPrompt_preamble)
             (number_toString (exampleId - 1)) [41%N]
             67 58 eq_refl eq_refl eq_refl eq_refl).
Qed.

Lemma make_question_eq (hasUserExamples : bool) (exampleId : Z)
    (inputAsString condition : jsstring) :
  make_question hasUserExamples exampleId inputAsString condition =
    question_opening ++ nl ++
    fst (formatInput hasUserExamples exampleId inputAsString condition) ++ nl ++
    question_closing.
Proof.
  unfold make_question.
  set (block := fst (formatInput hasUserExamples exampleId inputAsString condition)).
  pose proof (trim_frame nl [] (tl (question_opening ++ nl)) block
                (removelast (nl ++ question_closing)) 67 46
                eq_refl eq_refl eq_refl eq_refl) as H.
  exact H.
Qed.

Lemma make_request_eq (env : Env) (tok : Tokenizer) (p : Prepared)
    (ue : list Example) :
  let has := match ue with [] => false | _ :: _ => true end in
  let chosen := packed env tok ue (EXAMPLES_TOKENS p) in
  let exampleId := if has then 1 + Z.of_nat (length chosen) else 1 in
  make_request env tok p ue =
    {| systemPrompt := make_systemPrompt has exampleId;
       stopSequences := [END];
       messages :=
         fst (formatExamples env has (condition' p) 1 chosen) ++
         [ {| content := make_question has exampleId (inputAsString p) (condition' p);
              msg_role := user |} ] |}.
Proof.
  cbv zeta. unfold make_request.
  set (has := match ue with [] => false | _ :: _ => true end).
  pose proof (proj1 (formatExamples_counter env has (condition' p)
                       (packed env tok ue (EXAMPLES_TOKENS p)) 1)) as Hc.
  destruct (formatExamples env has (condition' p) 1
              (packed env tok ue (EXAMPLES_TOKENS p))) as [allExamples exampleId].
  cbn [fst snd] in *. now rewrite Hc.
Qed.

Lemma length_pairs {A B : Type} (x y : B) (l : list A) :
  length (flat_map (fun _ => [x; y]) l) = (2 * length l)%nat.
Proof. induction l as [|a l IH]; simpl; [reflexivity | rewrite IH; lia]. Qed.

(** X10: the request always ends with a user message that follows one
    user and one assistant message per packed example, and it always stops
    at the [END] marker. *)
Theorem request_alternates_roles (env : Env) (tok : Tokenizer) (p : Prepared)
    (ue : list Example) :
  let req := make_request env tok p ue in
  let chosen := packed env tok ue (EXAMPLES_TOKENS p) in
  map msg_role (messages req) =
    flat_map (fun _ => [user; assistant]) chosen ++ [user] /\
  length (messages req) = (2 * length chosen + 1)%nat /\
  stopSequences req = [END].
Proof.
  cbv zeta. rewrite make_request_eq. cbn [messages stopSequences].
  set (has := match ue with [] => false | _ :: _ => true end).
  pose proof (proj2 (formatExamples_counter env has (condition' p)
                       (packed env tok ue (EXAMPLES_TOKENS p)) 1)) as Hroles.
  assert (Hmap : map msg_role
            (fst (formatExamples env has (condition' p) 1
                    (packed env tok ue (EXAMPLES_TOKENS p))) ++
             [{| content := make_question has
                   (if has
                    then 1 + Z.of_nat (length (packed env tok ue (EXAMPLES_TOKENS p)))
                    else 1) (inputAsString p) (condition' p);
                 msg_role := user |}]) =
          flat_map (fun _ => [user; assistant])
            (packed env tok ue (EXAMPLES_TOKENS p)) ++ [user]).
  { rewrite map_app, Hroles. reflexivity. }
  split; [exact Hmap | split; [| reflexivity]].
  rewrite <- (length_map msg_role), Hmap, length_app.
  rewrite length_pairs. cbn [length]. lia.
Qed.

(** X11: with expert examples (retrieved or supplied by the caller) the
    system prompt announces the examples #1 to #k, k being the number of
    packed examples, and the real input is presented as Expert Example
    #(k+1), between the input delimiters and trimmed. *)
Theorem expert_examples_numbering (env : Env) (tok : Tokenizer) (p : Prepared)
    (ue : list Example) :
  ue <> [] ->
  let req := make_request env tok p ue in
  let k := Z.of_nat (length (packed env tok ue (EXAMPLES_TOKENS p))) in
  systemPrompt req =
    systemPrompt_preamble ++ number_toString k ++ str "):" ++
    nl ++ specialInstructions true /\
  exists examples,
    messages req =
      examples ++
      [ {| content :=
             question_opening ++ nl ++
             str "Expert Example #" ++ number_toString (k + 1) ++ nl ++
             str "<|start_input|>" ++ nl ++ trim (inputAsString p) ++ nl ++
             str "<|end_input|>" ++ nl ++ question_closing;
           msg_role := user |} ].
Proof.
  intros Hue. cbv zeta. rewrite make_request_eq.
  destruct ue as [|e0 ue']; [contradiction|].
  cbn [systemPrompt messages]. split.
  - rewrite make_systemPrompt_eq. do 2 f_equal. f_equal. lia.
  - eexists. f_equal. f_equal. f_equal.
    rewrite make_question_eq, formatInput_eq.
    replace (1 + Z.of_nat (length (packed env tok (e0 :: ue') (EXAMPLES_TOKENS p))))
      with (Z.of_nat (length (packed env tok (e0 :: ue') (EXAMPLES_TOKENS p))) + 1)
      by lia.
    rewrite <- !app_assoc. reflexivity.
Qed.

Lemma expert_examples_numbering_witness :
  systemPrompt (make_request Sample.env Sample.tok ten_tokens three_examples) =
    systemPrompt_preamble ++ str "1):" ++ nl ++ specialInstructions true.
Proof.
  exact (proj1 (expert_examples_numbering Sample.env Sample.tok ten_tokens
                  three_examples ltac:(discriminate))).
Defined.

(** X12: without expert examples the built-in examples are shown, the
    system prompt nevertheless announces the examples #1 to #0 and carries
    no extra guidance, and the question states the truncated condition. *)
Theorem default_examples_prompt (env : Env) (tok : Tokenizer) (p : Prepared) :
  let req := make_request env tok p [] in
  systemPrompt req = systemPrompt_preamble ++ str "0):" /\
  exists examples,
    map msg_role examples =
      flat_map (fun _ => [user; assistant])
        (takeUntilTokens defaultExamples (EXAMPLES_TOKENS p) (example_cost env tok)) /\
    messages req =
      examples ++
      [ {| content :=
             question_opening ++ nl ++
             str "Example of condition: " ++ dq ++ condition' p ++ dq ++ nl ++
             str "<|start_input|>" ++ nl ++ trim (inputAsString p) ++ nl ++
             str "<|end_input|>" ++ nl ++ question_closing;
           msg_role := user |} ].
Proof.
  cbv zeta. rewrite make_request_eq. cbn [systemPrompt messages]. split.
  - rewrite make_systemPrompt_eq. reflexivity.
  - eexists. split.
    + exact (proj2 (formatExamples_counter env false (condition' p)
                      (packed env tok [] (EXAMPLES_TOKENS p)) 1)).
    + f_equal. f_equal. f_equal.
      rewrite make_question_eq, formatInput_eq.
      rewrite <- !app_assoc. reflexivity.
Qed.

Lemma formatExamples_ignores_condition (env : Env) (c1 c2 : jsstring)
    (l : list Example) :
  forall exampleId,
    formatExamples env true c1 exampleId l = formatExamples env true c2 exampleId l.
Proof.
  induction l as [|example rest IH]; intros exampleId; [reflexivity|].
  cbn [formatExamples].
  replace (formatExample env true c2 exampleId example)
    with (formatExample env true c1 exampleId example) by reflexivity.
  destruct (formatExample env true c1 exampleId example) as [msgs exampleId'].
  now rewrite IH.
Qed.

(** X13: with expert examples the condition never reaches the model: two
    preparations with the same truncated input and the same examples
    budget give the same request, whatever their conditions. *)
Theorem expert_examples_hide_condition (env : Env) (tok : Tokenizer)
    (p1 p2 : Prepared) (ue : list Example) :
  ue <> [] ->
  inputAsString p1 = inputAsString p2 ->
  EXAMPLES_TOKENS p1 = EXAMPLES_TOKENS p2 ->
  make_request env tok p1 ue = make_request env tok p2 ue.
Proof.
  intros Hue Hi Ht. unfold make_request.
  destruct ue as [|e0 ue']; [contradiction|].
  rewrite Ht, (formatExamples_ignores_condition env (condition' p1) (condition' p2)).
  destruct (formatExamples env true (condition' p2) 1
              (packed env tok (e0 :: ue') (EXAMPLES_TOKENS p2)))
    as [allExamples exampleId].
  rewrite Hi. reflexivity.
Qed.

Lemma expert_examples_hide_condition_witness :
  make_request Sample.env Sample.tok ten_tokens three_examples =
  make_request Sample.env Sample.tok
    {| component := 100; inputAsString := str "x";
       condition' := str "Is the input a fruit?";
       EXAMPLES_TOKENS := 10; Key := [] |} three_examples.
Proof.
  apply (expert_examples_hide_condition Sample.env Sample.tok);
    [discriminate | reflexivity | reflexivity].
Defined.

(** ** More on the budget and the packing *)

Lemma shares_bound (c : Z) :
  100 <= c ->
  50 <= PROMPT_TOKENS_INPUT c /\ 20 <= PROMPT_TOKENS_CONDITION c /\
  30 <= c - PROMPT_TOKENS_INPUT c - PROMPT_TOKENS_CONDITION c /\
  (c < 2 ^ 50 ->
   10 * (PROMPT_TOKENS_INPUT c + PROMPT_TOKENS_CONDITION c) <= 7 * c).
Proof.
  intros Hc.
  pose proof (PROMPT_TOKENS_CONDITION_bounds c ltac:(lia)) as [Hquarter Heighth].
  unfold PROMPT_TOKENS_INPUT.
  pose proof (Z.div_mod c 2 ltac:(lia)).
  pose proof (Z.mod_pos_bound c 2 ltac:(lia)).
  pose proof (Z.div_mod c 5 ltac:(lia)).
  pose proof (Z.mod_pos_bound c 5 ltac:(lia)).
  destruct (Z_lt_le_dec c (2 ^ 50)) as [Hsmall | Hlarge].
  - rewrite (PROMPT_TOKENS_CONDITION_exact c ltac:(lia)).
    repeat split; lia.
  - change (2 ^ 50) with 1125899906842624 in *.
    repeat split; lia.
Qed.

Lemma examples_budget_bound
    (env : Env) (tok : Tokenizer) (maxTokens : Z)
    (taskId : option jsstring) (input : jsvalue) (condition : jsstring) :
  (forall t n, 0 <= n -> count tok (truncate tok t n) <= n) ->
  let p := prepare env tok maxTokens taskId input condition in
  30 <= EXAMPLES_TOKENS p /\ 100 <= component p /\
  (component p < 2 ^ 50 -> 3 * component p <= 10 * EXAMPLES_TOKENS p).
Proof.
  intros Htok p. subst p. unfold prepare.
  cbn [component EXAMPLES_TOKENS].
  set (c := PROMPT_COMPONENT maxTokens (PROMPT_INPUT_BUFFER env)).
  assert (Hc : 100 <= c) by (subst c; unfold PROMPT_COMPONENT; lia).
  destruct (shares_bound c Hc) as (HI & HC & Hrest & Hsum).
  pose proof (Htok (stringify env input) (PROMPT_TOKENS_INPUT c) ltac:(lia)).
  pose proof (Htok condition (PROMPT_TOKENS_CONDITION c) ltac:(lia)).
  split; [lia | split; [lia |]].
  intros Hsmall. specialize (Hsum Hsmall). lia.
Qed.

(** X14: whatever the model, the component is at least 100 tokens, the
    input is allowed at least 50 of them and the condition at least 20; a
    model whose maximum input leaves 100 tokens or fewer after the buffer
    gets exactly 100, 50 and 20; with a tokenizer whose truncation keeps
    within the requested number of tokens, at least 30 tokens are left for
    the examples; and for a component below [2^50], where the double
    product [0.2 * component] has the integer part of the exact fifth, the
    two shares together are at most 70% of the component and the examples
    get at least 30% of it. *)
Theorem budget_shares
    (env : Env) (tok : Tokenizer) (maxTokens : Z)
    (taskId : option jsstring) (input : jsvalue) (condition : jsstring) :
  let p := prepare env tok maxTokens taskId input condition in
  100 <= component p /\
  50 <= PROMPT_TOKENS_INPUT (component p) /\
  20 <= PROMPT_TOKENS_CONDITION (component p) /\
  (component p < 2 ^ 50 ->
   10 * (PROMPT_TOKENS_INPUT (component p) + PROMPT_TOKENS_CONDITION (component p))
     <= 7 * component p) /\
  (maxTokens - PROMPT_INPUT_BUFFER env <= 100 ->
   component p = 100 /\
   PROMPT_TOKENS_INPUT (component p) = 50 /\
   PROMPT_TOKENS_CONDITION (component p) = 20) /\
  ((forall t n, 0 <= n -> count tok (truncate tok t n) <= n) ->
   30 <= EXAMPLES_TOKENS p /\
   (component p < 2 ^ 50 -> 3 * component p <= 10 * EXAMPLES_TOKENS p)).
Proof.
  intros p.
  assert (Hc : 100 <= component p)
    by (subst p; unfold prepare, PROMPT_COMPONENT; cbn [component]; lia).
  destruct (shares_bound (component p) Hc) as (HI & HC & _ & Hsum).
  split; [exact Hc | split; [exact HI | split; [exact HC | split; [exact Hsum |]]]].
  split.
  - intros Hsmall.
    assert (E : component p = 100)
      by (subst p; unfold prepare, PROMPT_COMPONENT; cbn [component]; lia).
    rewrite E. repeat split; reflexivity.
  - intros Htok.
    destruct (examples_budget_bound env tok maxTokens taskId input condition Htok)
      as (H30 & _ & H3).
    fold p in H30, H3. split; assumption.
Qed.

Lemma budget_shares_witness :
  30 <= EXAMPLES_TOKENS
          (prepare narrow_env Sample.tok 7 None Sample.input Sample.condition) /\
  component (prepare narrow_env Sample.tok 7 None Sample.input Sample.condition) = 100.
Proof.
  destruct (budget_shares narrow_env Sample.tok 7 None Sample.input Sample.condition)
    as (_ & _ & _ & _ & Hsmall & Hex).
  split.
  - exact (proj1 (Hex sample_truncate_within)).
  - exact (proj1 (Hsmall ltac:(vm_compute; discriminate))).
Defined.

Section PackingMore.

Context {T : Type}.
Variable cost : T -> Z.

Lemma takeUntilTokens_from_monotone (arr : list T) (tokens1 tokens2 : Z) :
  tokens1 <= tokens2 ->
  forall total, exists extra,
    takeUntilTokens_from arr tokens2 cost total =
    takeUntilTokens_from arr tokens1 cost total ++ extra.
Proof.
  intros Hle. induction arr as [|a arr IH]; intros total; simpl.
  - now exists [].
  - destruct (Z.ltb_spec tokens1 (total + cost a)) as [H1|H1].
    + eexists. reflexivity.
    + destruct (Z.ltb_spec tokens2 (total + cost a)) as [H2|H2]; [lia|].
      destruct (IH (total + cost a)) as [extra ->]. now exists extra.
Qed.

Lemma takeUntilTokens_total (arr : list T) (tokens : Z) :
  0 <= tokens -> sum_cost cost (takeUntilTokens arr tokens cost) <= tokens.
Proof.
  intros H0.
  destruct (takeUntilTokens_spec cost tokens arr) as (rest & _ & Hwithin & _).
  cbv zeta in Hwithin.
  destruct (takeUntilTokens arr tokens cost) as [|el l] eqn:E; [simpl; lia|].
  specialize (Hwithin (length (el :: l)) ltac:(simpl; lia)).
  now rewrite firstn_all in Hwithin.
Qed.

End PackingMore.



(** X16: a larger examples budget never drops a packed example: what is
    packed under the smaller budget is a prefix of what is packed under the
    larger one; and a budget below the cost of the first candidate packs
    nothing. *)
Theorem packing_grows_with_budget
    (env : Env) (tok : Tokenizer) (ue : list Example) (tokens1 tokens2 : Z) :
  (tokens1 <= tokens2 ->
   exists extra,
     packed env tok ue tokens2 = packed env tok ue tokens1 ++ extra) /\
  (forall el rest,
     pool ue = el :: rest -> tokens1 < example_cost env tok el ->
     packed env tok ue tokens1 = []).
Proof.
  split.
  - intros Hle. unfold packed, takeUntilTokens.
    apply takeUntilTokens_from_monotone. exact Hle.
  - intros el rest Hpool Hlt. unfold packed, takeUntilTokens. rewrite Hpool.
    simpl. destruct (Z.ltb_spec tokens1 (example_cost env tok el)); [reflexivity | lia].
Qed.

Lemma packing_grows_with_budget_witness :
  (exists extra,
     packed Sample.env Sample.tok three_examples 16 =
     packed Sample.env Sample.tok three_examples 10 ++ extra) /\
  packed Sample.env Sample.tok three_examples 3 = [].
Proof.
  destruct (packing_grows_with_budget Sample.env Sample.tok three_examples 10 16)
    as [Hgrow _].
  destruct (packing_grows_with_budget Sample.env Sample.tok three_examples 3 3)
    as [_ Hnone].
  split.
  - apply Hgrow. lia.
  - apply (Hnone (hd (mkExample VNull true None None) three_examples)
             (tl three_examples)); [reflexivity | vm_compute; reflexivity].
Defined.

(** ** A response cut at the stop sequence *)

(** X17: a response in the requested format that the provider has cut at
    the [END] stop sequence, "Analysis: <justification>", a line break,
    "Final Answer: " and one marker, is parsed to that marker's verdict
    and to the trimmed justification, provided the justification contains
    no marker and no "Final Answer:" label. *)
Theorem transform_cut_response (answer : bool) (justification : jsstring) :
  includes TRUE justification = false ->
  includes FALSE justification = false ->
  includes END justification = false ->
  includes (str "Final Answer:") justification = false ->
  transform (str "Analysis: " ++ justification ++ nl ++ str "Final Answer: " ++
             (if answer then TRUE else FALSE)) =
    Ok {| finalAnswer := answer; x_explanation := trim justification |}.
Proof.
  intros HT HF HE HL.
  set (A := str "Analysis: ").
  assert (Hexp :
    trim (replace (str "Analysis:") []
         (replace (str "Final Answer:") []
         (replace END []
         (replace FALSE []
         (replace TRUE []
            (A ++ justification ++ nl ++ str "Final Answer: " ++
             (if answer then TRUE else FALSE)))))))
    = trim justification).
  { destruct answer;
      rewrite (replace_framed 10 TRUE [] A justification _ eq_refl eq_refl HT
               : replace TRUE [] (A ++ justification ++ nl ++ _) = _);
      rewrite (replace_framed 10 FALSE [] A justification _ eq_refl eq_refl HF
               : replace FALSE [] (A ++ justification ++
                    replace TRUE [] (10%N :: _)) = _);
      rewrite (replace_framed 10 END [] A justification _ eq_refl eq_refl HE
               : replace END [] (A ++ justification ++
                    replace FALSE [] (10%N :: _)) = _);
      rewrite (replace_framed 10 (str "Final Answer:") [] A justification _
                 eq_refl eq_refl HL
               : replace (str "Final Answer:") [] (A ++ justification ++
                    replace END [] (10%N :: _)) = _);
      exact (trim_padding [32%N] justification [10; 32]%N eq_refl eq_refl). }
  assert (Hinc :
    includes TRUE (A ++ justification ++ nl ++ str "Final Answer: " ++
                   (if answer then TRUE else FALSE)) = answer /\
    includes FALSE (A ++ justification ++ nl ++ str "Final Answer: " ++
                    (if answer then TRUE else FALSE)) = negb answer).
  { destruct answer; split.
    - exact (includes_framed 10 TRUE A justification _ eq_refl eq_refl HT).
    - exact (includes_framed 10 FALSE A justification _ eq_refl eq_refl HF).
    - exact (includes_framed 10 TRUE A justification _ eq_refl eq_refl HT).
    - exact (includes_framed 10 FALSE A justification _ eq_refl eq_refl HF). }
  destruct Hinc as [H1 H2].
  rewrite transform_present by (rewrite H1, H2; now destruct answer).
  rewrite Hexp, trim_idempotent, H1, H2.
  now destruct answer.
Qed.

Lemma transform_cut_response_witness :
  transform (str "Analysis: 50 Cent is a rapper." ++ nl ++
             str "Final Answer: " ++ TRUE) =
    Ok {| finalAnswer := true; x_explanation := str "50 Cent is a rapper." |}.
Proof.
  exact (transform_cut_response true (str "50 Cent is a rapper.")
           eq_refl eq_refl eq_refl eq_refl).
Defined.
